(** * validate_package.py: a shallow embedding and its properties

    The script [_tools/validate_package.py] downloads a package archive,
    unpacks it, resolves the unpacked directory, compares two SHA-256
    fields and the presence of [meta.json.old], and finally runs the GAP
    validator.  The embedding below keeps the four functions of the script
    ([unpack_archive], [unpacked_archive_name], [validate_package], [main])
    and the driver loop as programs over a signature of calls to the
    outside world (filesystem, console, the helpers of
    [scan_for_updates.py] and [utils.py]).  A program is run against a
    host, which answers every call and moves the world on; the run yields
    the list of calls made, the final world, and either a value or the
    exception that ended it. *)

From Stdlib Require Import Ascii.
From stdpp Require Import base option list strings gmap.

Local Open Scope Z_scope.
Local Open Scope nat_scope.

(** ** Python strings

    A Python string is a sequence of code points; it is modelled by the
    bytes of its UTF-8 encoding.  Concatenation, equality, [split] on an
    ASCII separator and [startswith]/[endswith] are the same on the bytes
    as on the code points.  [len] and slicing count code points, which
    matters where the script slices a directory entry: [str_len] and
    [slice_to] count the bytes that begin a code point.  [str.lower] is
    Unicode's, a table the script does not hold: it is a parameter, of
    which only its action on ASCII strings is fixed. *)

Module PyStr.

(** The number of bytes, and the byte-wise slices [take] and [drop]; they
    serve [startswith] and [endswith], which compare whole strings. *)
Abbreviation len := String.length.

Fixpoint take (n : nat) (s : string) : string :=
  match n, s with
  | S n', String c s' => String c (take n' s')
  | _, _ => ""
  end.

Fixpoint drop (n : nat) (s : string) : string :=
  match n, s with
  | S n', String _ s' => drop n' s'
  | _, _ => s
  end.

(** A byte that continues a code point begun by an earlier byte. *)
Definition is_continuation (c : ascii) : bool :=
  let n := nat_of_ascii c in (128 <=? n) && (n <? 192).

(** [len(s)]: the number of code points. *)
Fixpoint str_len (s : string) : nat :=
  match s with
  | "" => 0
  | String c s' => (if is_continuation c then 0 else 1) + str_len s'
  end.

(** [s[:n]]: the first [n] code points. *)
Fixpoint slice_to (n : nat) (s : string) : string :=
  match s with
  | "" => ""
  | String c s' =>
      if is_continuation c then String c (slice_to n s')
      else match n with
           | 0 => ""
           | S n' => String c (slice_to n' s')
           end
  end.

Definition ascii_lower (c : ascii) : ascii :=
  let n := nat_of_ascii c in
  if (65 <=? n) && (n <=? 90) then ascii_of_nat (n + 32) else c.

(** What [str.lower] does to a string of ASCII characters. *)
Fixpoint lower_ascii (s : string) : string :=
  match s with
  | "" => ""
  | String c s' => String (ascii_lower c) (lower_ascii s')
  end.

Fixpoint is_ascii (s : string) : bool :=
  match s with
  | "" => true
  | String c s' => (nat_of_ascii c <? 128) && is_ascii s'
  end.

(** [s.lower()], for every string: Unicode's lowercasing, which may
    change any character outside ASCII and the number of characters. *)
Class StrLower : Type := {
  lower : string → string;
  lower_on_ascii : ∀ s, is_ascii s = true → lower s = lower_ascii s;
}.

(** [s.startswith(p)] *)
Definition startswith (s p : string) : bool :=
  bool_decide (take (len p) s = p).

(** [s.endswith(x)] *)
Definition endswith (s x : string) : bool :=
  (len x <=? len s) && bool_decide (drop (len s - len x) s = x).

(** [s.split(sep)] for a one-character separator: the list is never
    empty, and adjacent separators give empty pieces. *)
Fixpoint split (sep : ascii) (s : string) : list string :=
  match s with
  | "" => [""]
  | String c s' =>
      if decide (c = sep) then "" :: split sep s'
      else match split sep s' with
           | [] => [String c ""]
           | w :: ws => String c w :: ws
           end
  end.

(** [l[i]] with Python's negative indices; [None] stands for the
    [IndexError]. *)
Definition getitem {A} (l : list A) (i : Z) : option A :=
  if (0 <=? i)%Z then l !! Z.to_nat i
  else if (- Z.of_nat (length l) <=? i)%Z
       then l !! Z.to_nat (Z.of_nat (length l) + i)
       else None.

(** [posixpath.join(a, b)] on two strings. *)
Definition join (a b : string) : string :=
  if startswith b "/" then b
  else if bool_decide (a = "") || endswith a "/" then a +:+ b
  else a +:+ "/" +:+ b.

Global Arguments join : simpl never.

End PyStr.

Import PyStr.

(** ** Exceptions and results *)

Inductive exn : Type :=
| TypeError
| KeyError (key : string)
| IndexError
| OSError (path : string)
| SystemExit (code : Z)
| HostError (what : string).

Inductive Res (A : Type) : Type :=
| Ok (a : A)
| Err (e : exn).
Arguments Ok {A} a.
Arguments Err {A} e.

(** A metadata record, as returned by [metadata(pkg_name)]. *)
Abbreviation record := (gmap string string).

(** ** Calls to the outside world *)

Inductive Cmd : Type :=
| OsPathExists (path : string)
| OsMkdir (path : string)
| OsListdir (path : string)
| TarExtractAll (archive_fname unpack_dir : string)
| ZipExtractAll (archive_fname unpack_dir : string)
| Sha256 (fname : string)
| Metadata (pkg_name : string)
| DownloadArchive (pkg_name url archive_fname : string) (tries : nat)
| GapExec (commands gap : string)
| DirOfThisFile
| Notice (msg : string)
| Warning (msg : string).

Definition Ans (c : Cmd) : Type :=
  match c with
  | OsPathExists _ => bool
  | OsMkdir _ => unit
  | OsListdir _ => list string
  | TarExtractAll _ _ => unit
  | ZipExtractAll _ _ => unit
  | Sha256 _ => string
  | Metadata _ => record
  | DownloadArchive _ _ _ _ => unit
  | GapExec _ _ => Z
  | DirOfThisFile => string
  | Notice _ => unit
  | Warning _ => unit
  end.

(** ** Programs *)

Inductive Prog (A : Type) : Type :=
| Ret (a : A)
| Raise (e : exn)
| Do (c : Cmd) (k : Ans c → Prog A).
Arguments Ret {A} a.
Arguments Raise {A} e.
Arguments Do {A} c k.

Fixpoint bind {A B} (m : Prog A) (f : A → Prog B) : Prog B :=
  match m with
  | Ret a => f a
  | Raise e => Raise e
  | Do c k => Do c (λ x, bind (k x) f)
  end.

Definition call (c : Cmd) : Prog (Ans c) := Do c Ret.

Definition lift_option {A} (e : exn) (o : option A) : Prog A :=
  match o with
  | Some a => Ret a
  | None => Raise e
  end.

Notation "x <- m ;; k" := (bind m (λ x, k))
  (at level 100, m at next level, right associativity,
   format "'[v' x  <-  m ;; '/' k ']'").
Notation "m ;;; k" := (bind m (λ _, k))
  (at level 100, right associativity,
   format "'[v' m ;;; '/' k ']'").

(** [d[key]] on a metadata record. *)
Definition subscript (d : record) (key : string) : Prog string :=
  lift_option (KeyError key) (d !! key).

(** [l[i]] *)
Definition index {A} (l : list A) (i : Z) : Prog A :=
  lift_option IndexError (getitem l i).

(** [os.path.join(a, b)] where [a] may be [None]. *)
Definition os_path_join (a : option string) (b : string) : Prog string :=
  match a with
  | Some a => Ret (join a b)
  | None => Raise TypeError
  end.

(** [str(x)] as [format] applies it to a value that may be [None]. *)
Definition str_of (a : option string) : string :=
  match a with
  | Some a => a
  | None => "None"
  end.

(** ** The script *)

Definition unpacking_msg (pkg_name archive_fname unpack_dir : string) : string :=
  pkg_name +:+ ": unpacking " +:+ archive_fname +:+ " into " +:+ unpack_dir +:+ " ...".

Definition bad_extension_msg (pkg_name ext archive_fname : string) : string :=
  pkg_name +:+ ": bad archive extension " +:+ ext +:+ ", skipping " +:+ archive_fname.

Definition unpack_archive (unpack_dir pkg_name archive_fname : string) : Prog unit :=
  present <- call (OsPathExists unpack_dir) ;;
  (if present then Ret tt else call (OsMkdir unpack_dir)) ;;;
  ext <- index (split "." archive_fname) (-1) ;;
  call (Notice (unpacking_msg pkg_name archive_fname unpack_dir)) ;;;
  if endswith ext "gz" || endswith ext "bz2" then
    call (TarExtractAll archive_fname unpack_dir)
  else if endswith ext "zip" then
    call (ZipExtractAll archive_fname unpack_dir)
  else
    call (Notice (bad_extension_msg pkg_name ext archive_fname)).

(** [len(x) >= len(pkg_name) and x[: len(pkg_name)].lower() == pkg_name] *)
Definition entry_matches `{!StrLower} (pkg_name x : string) : bool :=
  (str_len pkg_name <=? str_len x)
  && bool_decide (lower (slice_to (str_len pkg_name) x) = pkg_name).

(** The [for] loop of [unpacked_archive_name] with its early [return]. *)
Fixpoint scan_entries `{!StrLower} (unpack_dir pkg_name : string)
    (entries : list string) : option string :=
  match entries with
  | [] => None
  | x :: rest =>
      if entry_matches pkg_name x then Some (join unpack_dir x)
      else scan_entries unpack_dir pkg_name rest
  end.

Definition undetermined_msg : string :=
  "{}: couldn't determine the unpacked archive directory!".

Definition unpacked_archive_name `{!StrLower} (unpack_dir pkg_name : string)
  : Prog (option string) :=
  entries <- call (OsListdir unpack_dir) ;;
  match scan_entries unpack_dir pkg_name entries with
  | Some path => Ret (Some path)
  | None => call (Warning undetermined_msg) ;;; Ret None
  end.

Definition pkg_info_sha_msg (pkg_name pkg_info_name : string) : string :=
  pkg_name +:+ ": " +:+ pkg_name
  +:+ "/meta.yml:PackageInfoSHA256 is not the SHA256 of "
  +:+ pkg_info_name +:+ ", FAILED!".

Definition archive_sha_msg (pkg_name packed_name : string) : string :=
  pkg_name +:+ ": " +:+ pkg_name
  +:+ "/meta.yml:ArchiveSHA256 is not the SHA256 of "
  +:+ packed_name +:+ ", FAILED!".

Definition missing_old_msg (pkg_name : string) : string :=
  pkg_name +:+ ": the file " +:+ pkg_name +:+ "/meta.yml.old is missing, FAILED!".

Definition validate_package (pkg_name : string) (unpacked_name : option string)
    (packed_name : string) (pkg_json : record) : Prog bool :=
  let result := true in
  pkg_info_name <- os_path_join unpacked_name "PackageInfo.g" ;;
  recorded <- subscript pkg_json "PackageInfoSHA256" ;;
  actual <- call (Sha256 pkg_info_name) ;;
  result <- (if bool_decide (recorded ≠ actual)
             then call (Warning (pkg_info_sha_msg pkg_name pkg_info_name)) ;;;
                  Ret false
             else Ret result) ;;
  recorded <- subscript pkg_json "ArchiveSHA256" ;;
  actual <- call (Sha256 packed_name) ;;
  result <- (if bool_decide (recorded ≠ actual)
             then call (Warning (archive_sha_msg pkg_name packed_name)) ;;;
                  Ret false
             else Ret result) ;;
  present <- call (OsPathExists (join pkg_name "meta.json.old")) ;;
  result <- (if negb present
             then call (Warning (missing_old_msg pkg_name)) ;;; Ret false
             else Ret result) ;;
  Ret result.

Definition failed_msg (pkg_name : string) : string :=
  pkg_name +:+ ": validation FAILED!".

Definition ok_msg (pkg_name : string) : string :=
  pkg_name +:+ ": validated ok!".

(** A backslash followed by a double quote (character 034), as the raw
    string literal passed to [gap_exec] spells it. *)
Definition bq : string := String "\" (String "034" "").

Definition gap_commands (unpacked_name : option string) (pkg_name : string)
  : string :=
  "ValidatePackagesArchive(" +:+ bq +:+ str_of unpacked_name +:+ bq
  +:+ ", " +:+ bq +:+ pkg_name +:+ bq +:+ ");".

Definition gap_binary (dir_of_this_file : string) : string :=
  "gap " +:+ dir_of_this_file +:+ "/validate_package.g".

Definition main `{!StrLower} (pkg_name : string) : Prog unit :=
  let unpack_dir := "_unpacked_archives" in
  let archive_dir := "_archives" in
  pkg_json <- call (Metadata pkg_name) ;;
  formats <- subscript pkg_json "ArchiveFormats" ;;
  fmt <- index (split " " formats) 0 ;;
  archive_url <- subscript pkg_json "ArchiveURL" ;;
  let url := archive_url +:+ fmt in
  archive_url <- subscript pkg_json "ArchiveURL" ;;
  segment <- index (split "/" archive_url) (-1) ;;
  let packed_name := join archive_dir (segment +:+ fmt) in
  call (DownloadArchive pkg_name url packed_name 5) ;;;
  unpack_archive unpack_dir pkg_name packed_name ;;;
  unpacked_name <- unpacked_archive_name unpack_dir pkg_name ;;
  passed <- validate_package pkg_name unpacked_name packed_name pkg_json ;;
  if passed then
    dir_of_this_file <- call DirOfThisFile ;;
    code <- call (GapExec (gap_commands unpacked_name pkg_name)
                          (gap_binary dir_of_this_file)) ;;
    if bool_decide (code ≠ 0%Z)
    then call (Warning (failed_msg pkg_name))
    else call (Notice (ok_msg pkg_name))
  else Ret tt.

(** [for x in l: body(x)] *)
Fixpoint for_each {A} (l : list A) (body : A → Prog unit) : Prog unit :=
  match l with
  | [] => Ret tt
  | x :: rest => body x ;;; for_each rest body
  end.

(** [range(a, b)] *)
Definition range (a b : nat) : list nat := seq a (b - a).

(** The [__main__] block; [argv] is [sys.argv]. *)
Definition script `{!StrLower} (argv : list string) : Prog unit :=
  for_each (range 1 (length argv))
           (λ i, pkg_name <- index argv (Z.of_nat i) ;; main pkg_name).

(** ** Hosts and runs

    A host answers the calls.  Queries read the world; [os.mkdir], the two
    extractions, [metadata], [download_archive] and [gap_exec] may change
    it, also when they raise.  [notice] and [warning] only print. *)

Class Host (W : Type) : Type := {
  host_exists : W → string → bool;
  host_listdir : W → string → Res (list string);
  host_sha256 : W → string → Res string;
  host_this_dir : W → string;
  host_mkdir : W → string → W * Res unit;
  host_tar : W → string → string → W * Res unit;
  host_zip : W → string → string → W * Res unit;
  host_metadata : W → string → W * Res record;
  host_download : W → string → string → string → nat → W * Res unit;
  host_gap_exec : W → string → string → W * Res Z;
}.

(** The outcome of a run: the calls made, in order, the world left behind,
    and the value returned or the exception raised. *)
Record Outcome (W A : Type) : Type := Out {
  trace : list Cmd;
  world : W;
  result : Res A;
}.
Arguments Out {W A} _ _ _.
Arguments trace {W A} _.
Arguments world {W A} _.
Arguments result {W A} _.

Section Run.
Context {W : Type} `{!Host W}.

(** Modelled from the spec: [notice] and [warning] of [utils.py], which is
    not among the sources, print one console line per call; they leave
    the world alone and do not raise.  Every other call is answered by
    the host. *)
Definition handle (c : Cmd) (w : W) : W * Res (Ans c) :=
  match c with
  | OsPathExists p => (w, Ok (host_exists w p))
  | OsMkdir p => host_mkdir w p
  | OsListdir p => (w, host_listdir w p)
  | TarExtractAll a d => host_tar w a d
  | ZipExtractAll a d => host_zip w a d
  | Sha256 f => (w, host_sha256 w f)
  | Metadata p => host_metadata w p
  | DownloadArchive p u a n => host_download w p u a n
  | GapExec c g => host_gap_exec w c g
  | DirOfThisFile => (w, Ok (host_this_dir w))
  | Notice _ => (w, Ok tt)
  | Warning _ => (w, Ok tt)
  end.

Definition after {A} (c : Cmd) (o : Outcome W A) : Outcome W A :=
  Out (c :: trace o) (world o) (result o).

Fixpoint run {A} (p : Prog A) (w : W) : Outcome W A :=
  match p with
  | Ret a => Out [] w (Ok a)
  | Raise e => Out [] w (Err e)
  | Do c k =>
      match handle c w with
      | (w', Ok x) => after c (run (k x) w')
      | (w', Err e) => Out [c] w' (Err e)
      end
  end.

(** Sequencing of outcomes: what [bind] does to runs. *)
Definition and_then {A B} (o : Outcome W A) (f : A → W → Outcome W B)
  : Outcome W B :=
  match result o with
  | Ok a =>
      let o' := f a (world o) in
      Out (trace o ++ trace o') (world o') (result o')
  | Err e => Out (trace o) (world o) (Err e)
  end.

End Run.

(** ** Vocabulary of the statements *)

(** [x] is a suffix (prefix) of [s]. *)
Definition ends_with (s x : string) : Prop := ∃ p, s = p +:+ x.
Definition starts_with (s p : string) : Prop := ∃ r, s = p +:+ r.

(** The character [c] occurs in [s]. *)
Definition occurs (c : ascii) (s : string) : Prop :=
  ∃ p r, s = p +:+ String c r.

(** [x] is the last (first) of the pieces of [s] between occurrences of
    [sep]. *)
Definition last_piece (sep : ascii) (s x : string) : Prop :=
  ¬ occurs sep x ∧ (s = x ∨ ∃ p, s = p +:+ String sep x).
Definition first_piece (sep : ascii) (s x : string) : Prop :=
  ¬ occurs sep x ∧ (s = x ∨ ∃ r, s = x +:+ String sep r).

(** The pieces put back together, with [sep] between them. *)
Fixpoint intercalate (sep : ascii) (l : list string) : string :=
  match l with
  | [] => ""
  | w :: ws =>
      match ws with
      | [] => w
      | _ :: _ => w +:+ String sep (intercalate sep ws)
      end
  end.

(** The last character of a string. *)
Fixpoint last_char (s : string) : option ascii :=
  match s with
  | "" => None
  | String c s' => match last_char s' with Some d => Some d | None => Some c end
  end.

(** [r] is empty or begins a code point: a string may be cut before it. *)
Definition starts_char (r : string) : Prop :=
  match r with
  | "" => True
  | String c _ => is_continuation c = false
  end.

(** The test of [unpacked_archive_name], said without indices: [x] begins
    with as many characters as [pkg_name] has, and [str.lower] maps them to
    [pkg_name] itself. *)
Definition lower_prefix `{!StrLower} (pkg_name x : string) : Prop :=
  ∃ p r, x = p +:+ r ∧ str_len p = str_len pkg_name ∧ starts_char r
         ∧ lower p = pkg_name.


(** The lines printed by the calls of a trace, and the warnings among
    them. *)
Definition printed (c : Cmd) : option string :=
  match c with
  | Notice m | Warning m => Some m
  | _ => None
  end.
Definition console (t : list Cmd) : list string := omap printed t.

Definition warned (c : Cmd) : option string :=
  match c with
  | Warning m => Some m
  | _ => None
  end.
Definition warnings (t : list Cmd) : list string := omap warned t.

(** The outcome lines of a package among the printed lines. *)
Definition is_outcome_line (pkg_name m : string) : bool :=
  bool_decide (m = ok_msg pkg_name) || bool_decide (m = failed_msg pkg_name).
Definition prints_outcome (pkg_name : string) (c : Cmd) : bool :=
  match printed c with
  | Some m => is_outcome_line pkg_name m
  | None => false
  end.
Definition outcome_lines (pkg_name : string) (t : list Cmd) : list string :=
  omap printed (List.filter (prints_outcome pkg_name) t).

(** The warning of a check, when the check fails. *)
Definition warn_if (failed : bool) (msg : string) : list Cmd :=
  if failed then [Warning msg] else [].

(** Calls of the external validator, of the extraction routines, and of
    anything that writes to the filesystem. *)
Definition is_gap_exec (c : Cmd) : bool :=
  match c with GapExec _ _ => true | _ => false end.
Definition is_extraction (c : Cmd) : bool :=
  match c with TarExtractAll _ _ | ZipExtractAll _ _ => true | _ => false end.

(** The packages a trace starts work on: [main] begins with the
    [metadata] call. *)
Definition started (c : Cmd) : option string :=
  match c with
  | Metadata p => Some p
  | _ => None
  end.
Definition processed (t : list Cmd) : list string := omap started t.
Definition is_metadata (c : Cmd) : bool :=
  match c with Metadata _ => true | _ => false end.

Definition gap_calls (t : list Cmd) : list Cmd := List.filter is_gap_exec t.

(** No call that [f] selects occurs anywhere in the program. *)
Fixpoint avoids {A} (f : Cmd → bool) (p : Prog A) : Prop :=
  match p with
  | Ret _ | Raise _ => True
  | Do c k => f c = false ∧ ∀ x, avoids f (k x)
  end.

Definition extractions (t : list Cmd) : list Cmd := List.filter is_extraction t.

Section Staging.
Context {W : Type} `{!Host W}.

(** The staging directory is there, or [os.mkdir] creates it. *)
Definition staging_ready (w : W) (unpack_dir : string) : Prop :=
  host_exists w unpack_dir = true
  ∨ ∃ w1, host_mkdir w unpack_dir = (w1, Ok tt).

(** The world after the first two lines of [unpack_archive], and the
    calls they make. *)
Definition staged (w : W) (unpack_dir : string) : W :=
  if host_exists w unpack_dir then w else (host_mkdir w unpack_dir).1.

Definition staging_calls (w : W) (unpack_dir : string) : list Cmd :=
  if host_exists w unpack_dir then [OsPathExists unpack_dir]
  else [OsPathExists unpack_dir; OsMkdir unpack_dir].

End Staging.

(** Lines 115 to 127 of [main]: everything before [validate_package],
    returning what the call is given. *)
Definition main_setup `{!StrLower} (pkg_name : string)
  : Prog (record * string * option string) :=
  let unpack_dir := "_unpacked_archives" in
  let archive_dir := "_archives" in
  pkg_json <- call (Metadata pkg_name) ;;
  formats <- subscript pkg_json "ArchiveFormats" ;;
  fmt <- index (split " " formats) 0 ;;
  archive_url <- subscript pkg_json "ArchiveURL" ;;
  let url := archive_url +:+ fmt in
  archive_url <- subscript pkg_json "ArchiveURL" ;;
  segment <- index (split "/" archive_url) (-1) ;;
  let packed_name := join archive_dir (segment +:+ fmt) in
  call (DownloadArchive pkg_name url packed_name 5) ;;;
  unpack_archive unpack_dir pkg_name packed_name ;;;
  unpacked_name <- unpacked_archive_name unpack_dir pkg_name ;;
  Ret (pkg_json, packed_name, unpacked_name).

(** Lines 135 to 147 of [main]: the body of the [if]. *)
Definition main_external (pkg_name : string) (unpacked_name : option string)
  : Prog unit :=
  dir_of_this_file <- call DirOfThisFile ;;
  code <- call (GapExec (gap_commands unpacked_name pkg_name)
                        (gap_binary dir_of_this_file)) ;;
  if bool_decide (code ≠ 0%Z)
  then call (Warning (failed_msg pkg_name))
  else call (Notice (ok_msg pkg_name)).

Section Stages.
Context {W : Type} `{!Host W} `{!StrLower}.

(** The run of [main] up to the return of [validate_package]: its value
    is the flag returned, with the directory that was resolved. *)
Definition field_validation (pkg_name : string) (w : W)
  : Outcome W (bool * option string) :=
  and_then (run (main_setup pkg_name) w)
    (λ '(pkg_json, packed_name, unpacked_name) w1,
       and_then
         (run (validate_package pkg_name unpacked_name packed_name pkg_json) w1)
         (λ passed w2, Out [] w2 (Ok (passed, unpacked_name)))).

(** What [gap_exec] answers when [main] calls it in world [w]. *)
Definition validator_answer (pkg_name : string)
    (unpacked_name : option string) (w : W) : W * Res Z :=
  host_gap_exec w (gap_commands unpacked_name pkg_name)
                (gap_binary (host_this_dir w)).

(** [main] on one package after the other, each from the world the one
    before left, until one raises. *)
Fixpoint run_packages (pkgs : list string) (w : W) : Outcome W unit :=
  match pkgs with
  | [] => Out [] w (Ok tt)
  | p :: rest => and_then (run (main p) w) (λ _ w', run_packages rest w')
  end.

(** What the three checks look at, in a world [w]. *)
Definition manifest_hash_ok (w : W) (unpacked_name : option string)
    (pkg_json : record) : Prop :=
  ∃ unpacked h, unpacked_name = Some unpacked
    ∧ host_sha256 w (join unpacked "PackageInfo.g") = Ok h
    ∧ pkg_json !! "PackageInfoSHA256" = Some h.

Definition archive_hash_ok (w : W) (packed_name : string)
    (pkg_json : record) : Prop :=
  ∃ h, host_sha256 w packed_name = Ok h
    ∧ pkg_json !! "ArchiveSHA256" = Some h.

Definition snapshot_present (w : W) (pkg_name : string) : Prop :=
  host_exists w (join pkg_name "meta.json.old") = true.

End Stages.

(** Calls that only read the world or print. *)
Definition reads_only (c : Cmd) : bool :=
  match c with
  | OsPathExists _ | OsListdir _ | Sha256 _ | DirOfThisFile
  | Notice _ | Warning _ => true
  | _ => false
  end.

(** The three kinds of call [validate_package] makes. *)
Definition is_check_call (c : Cmd) : bool :=
  match c with
  | Sha256 _ | OsPathExists _ | Warning _ => true
  | _ => false
  end.

Definition is_mkdir (c : Cmd) : bool :=
  match c with OsMkdir _ => true | _ => false end.
Definition is_download (c : Cmd) : bool :=
  match c with DownloadArchive _ _ _ _ => true | _ => false end.
Definition is_hash (c : Cmd) : bool :=
  match c with Sha256 _ => true | _ => false end.

(** [formats.split(" ")[0]] and [url.split("/")[-1]]; the list is never
    empty, so the default is never used. *)
Definition first_format (formats : string) : string :=
  default "" (getitem (split " " formats) 0).
Definition last_segment (archive_url : string) : string :=
  default "" (getitem (split "/" archive_url) (-1)).

(** ** A small concrete host

    A world is a snapshot of the working directory: the regular files with
    the SHA-256 of their content, the directories with their entries, what
    each archive holds, the metadata of each package, and the exit code of
    the GAP validator.  There is no network: [download_archive] succeeds
    only when the archive is already there. *)

Module Toy.

Fixpoint assoc {A} (k : string) (l : list (string * A)) : option A :=
  match l with
  | [] => None
  | (k', v) :: rest => if decide (k = k') then Some v else assoc k rest
  end.

Record world : Type := World {
  files : list (string * string);
  dirs : list (string * list string);
  packed : list (string * (string * string));
  records : list (string * record);
  validator : Z;
}.

Definition exists_ (w : world) (p : string) : bool :=
  bool_decide (is_Some (assoc p (files w)))
  || bool_decide (is_Some (assoc p (dirs w))).

Definition from_assoc {A} (k : string) (l : list (string * A)) : Res A :=
  match assoc k l with
  | Some v => Ok v
  | None => Err (OSError k)
  end.

Definition mkdir (w : world) (p : string) : world * Res unit :=
  if exists_ w p then (w, Err (OSError p))
  else (World (files w) ((p, []) :: dirs w) (packed w) (records w)
              (validator w), Ok tt).

Definition add_entry (d x : string) (ds : list (string * list string))
  : list (string * list string) :=
  let old := default [] (assoc d ds) in
  (d, if bool_decide (x ∈ old) then old else old ++ [x])
    :: filter (λ e, e.1 ≠ d) ds.

(** Extraction puts the top-level directory of the archive, with its
    [PackageInfo.g], under [d]. *)
Definition extract (w : world) (a d : string) : world * Res unit :=
  match assoc a (packed w) with
  | None => (w, Err (OSError a))
  | Some (top, h) =>
      (World ((join (join d top) "PackageInfo.g", h) :: files w)
             ((join d top, ["PackageInfo.g"]) :: add_entry d top (dirs w))
             (packed w) (records w) (validator w), Ok tt)
  end.

Definition download (w : world) (pkg_name url archive_fname : string)
    (tries : nat) : world * Res unit :=
  if exists_ w archive_fname then (w, Ok tt) else (w, Err (SystemExit 1)).

(** On the sample inputs, which are ASCII, [str.lower] is [lower_ascii]. *)
#[global] Instance ascii_lowering : StrLower := {|
  lower := lower_ascii;
  lower_on_ascii := λ _ _, eq_refl;
|}.

#[global] Instance host : Host world := {|
  host_exists := exists_;
  host_listdir w d := from_assoc d (dirs w);
  host_sha256 w f := from_assoc f (files w);
  host_this_dir w := "_tools";
  host_mkdir := mkdir;
  host_tar := extract;
  host_zip := extract;
  host_metadata w p := (w, from_assoc p (records w));
  host_download := download;
  host_gap_exec w c g := (w, Ok (validator w));
|}.

Definition staging_dir : string := "_unpacked_archives".
Definition walrus_tgz : string := "_archives/walrus-0.9991.tar.gz".
Definition walrus_dir : string := "_unpacked_archives/walrus-0.9991".

(** A working directory that holds only the staging directory, with the
    given entries. *)
Definition staging (entries : list string) : world :=
  World [] [("_unpacked_archives", entries)] [] [] 0.

Definition meta (url formats info_sha archive_sha : string) : record :=
  <["ArchiveURL" := url]> (<["ArchiveFormats" := formats]>
    (<["PackageInfoSHA256" := info_sha]> (<["ArchiveSHA256" := archive_sha]> ∅))).

(** The working directory of the example in the script's docstring, with
    the archives downloaded but not yet unpacked; [walrus] has no
    [meta.json.old]. *)
Definition distro : world := {|
  files := [("_archives/digraphs-1.5.0.tar.gz", "d1a0");
            ("_archives/walrus-0.9991.tar.gz", "3a77");
            ("digraphs/meta.json", "77aa"); ("digraphs/meta.json.old", "66bb");
            ("walrus/meta.json", "55cc")];
  dirs := [("_archives", ["digraphs-1.5.0.tar.gz"; "walrus-0.9991.tar.gz"]);
           ("digraphs", ["meta.json"; "meta.json.old"]);
           ("walrus", ["meta.json"])];
  packed := [("_archives/digraphs-1.5.0.tar.gz", ("digraphs-1.5.0", "0f1e"));
             ("_archives/walrus-0.9991.tar.gz", ("walrus-0.9991", "9c2d"))];
  records :=
    [("digraphs",
      meta "https://github.com/digraphs/Digraphs/releases/download/v1.5.0/digraphs-1.5.0"
           ".tar.gz .tar.bz2" "0f1e" "d1a0");
     ("walrus",
      meta "https://github.com/gap-packages/walrus/releases/download/v0.9991/walrus-0.9991"
           ".tar.gz" "9c2d" "3a77")];
  validator := 0;
|}.

(** The same directory with a package that is released as [.tar.xz]
    only. *)
Definition with_xz : world := {|
  files := ("_archives/example-1.0.tar.xz", "4b4b")
           :: ("example/meta.json", "2222")
           :: ("example/meta.json.old", "1111") :: files distro;
  dirs := ("example", ["meta.json"; "meta.json.old"]) :: dirs distro;
  packed := ("_archives/example-1.0.tar.xz", ("example-1.0", "aaaa"))
            :: packed distro;
  records := ("example",
              meta "https://example.org/releases/example-1.0" ".tar.xz"
                   "aaaa" "4b4b") :: records distro;
  validator := 0;
|}.

(** [walrus] unpacked, with a record whose two hashes are stale. *)
Definition stale_record : record :=
  meta "https://github.com/gap-packages/walrus/releases/download/v0.9991/walrus-0.9991"
       ".tar.gz" "ffff" "eeee".

Definition unpacked : world := {|
  files := ("_unpacked_archives/walrus-0.9991/PackageInfo.g", "9c2d")
           :: files distro;
  dirs := ("_unpacked_archives", ["walrus-0.9991"])
          :: ("_unpacked_archives/walrus-0.9991", ["PackageInfo.g"])
          :: dirs distro;
  packed := packed distro;
  records := [("walrus", stale_record)];
  validator := 0;
|}.

(** A package whose [ArchiveURL] ends in a slash and whose format begins
    with one. *)
Definition slashes : world := {|
  files := files distro;
  dirs := dirs distro;
  packed := packed distro;
  records := [("example",
               meta "https://example.org/releases/" "/tmp/x.zip" "aaaa" "4b4b")];
  validator := 0;
|}.


(** [walrus] unpacked without its [PackageInfo.g]. *)
Definition no_manifest : world := {|
  files := files distro;
  dirs := ("_unpacked_archives", ["walrus-0.9991"])
          :: ("_unpacked_archives/walrus-0.9991", []) :: dirs distro;
  packed := packed distro;
  records := records distro;
  validator := 0;
|}.

(** A package whose record has no [ArchiveFormats], and one whose archive
    has not been downloaded. *)
Definition incomplete : world := {|
  files := files distro;
  dirs := dirs distro;
  packed := packed distro;
  records := [("example", <["ArchiveURL" := "https://example.org/releases/example-1.0"]> ∅);
              ("aclib", meta "https://github.com/gap-packages/aclib/releases/download/v1.3.2/aclib-1.3.2"
                             ".tar.gz .tar.bz2" "1a1a" "2b2b")];
  validator := 0;
|}.

End Toy.

(** ** Strings: lemmas *)

Section Strings.
Context `{!StrLower}.

(** The string model on the inputs the script meets. *)
Example split_dots :
  split "." "_archives/walrus-0.9991.tar.gz"
  = ["_archives/walrus-0"; "9991"; "tar"; "gz"].
Proof. reflexivity. Qed.

Example split_trailing_slash : split "/" "http://x/" = ["http:"; ""; "x"; ""].
Proof. reflexivity. Qed.

Example split_no_separator : split " " ".tar.gz" = [".tar.gz"].
Proof. reflexivity. Qed.

Example getitem_negative : getitem [1; 2; 3] (-1) = Some 3 ∧ getitem [1; 2; 3] (-4) = None.
Proof. split; reflexivity. Qed.

Example join_relative : join "_archives" "walrus-0.9991.tar.gz" = "_archives/walrus-0.9991.tar.gz".
Proof. reflexivity. Qed.

Example join_after_slash : join "walrus/" "meta.json.old" = "walrus/meta.json.old".
Proof. reflexivity. Qed.

Example join_absolute : join "_archives" "/tmp/x.zip" = "/tmp/x.zip".
Proof. reflexivity. Qed.

Example lower_ascii_mixed : lower_ascii "GAPDoc-1.6.6" = "gapdoc-1.6.6".
Proof. reflexivity. Qed.

(** [É] is one character in two bytes. *)
Example len_counts_characters : str_len "É-1.0" = 5 ∧ len "É-1.0" = 6.
Proof. split; reflexivity. Qed.

Example slice_keeps_characters :
  slice_to 1 "É-1.0" = "É" ∧ slice_to 2 "É-1.0" = "É-" ∧ slice_to 9 "É" = "É".
Proof. repeat split; reflexivity. Qed.

Example endswith_bz2 : endswith "bz2" "bz2" = true ∧ endswith "z2" "bz2" = false.
Proof. split; reflexivity. Qed.

Lemma str_app_cons c s t : String c s +:+ t = String c (s +:+ t).
Proof. reflexivity. Qed.

Lemma str_app_empty_l t : "" +:+ t = t.
Proof. reflexivity. Qed.

Lemma str_app_assoc s t u : (s +:+ t) +:+ u = s +:+ t +:+ u.
Proof. induction s as [|c s IH]; [done|]. by rewrite !str_app_cons, IH. Qed.

Lemma len_app s t : len (s +:+ t) = len s + len t.
Proof. induction s as [|c s IH]; [done|]. rewrite str_app_cons. simpl. by rewrite IH. Qed.

Lemma str_take_drop n s : take n s +:+ drop n s = s.
Proof.
  revert s. induction n as [|n IH]; intros [|c s]; try done.
  simpl. by rewrite str_app_cons, IH.
Qed.

Lemma str_take_app_len p s : take (len p) (p +:+ s) = p.
Proof.
  induction p as [|c p IH]; [by destruct s|].
  rewrite str_app_cons. simpl. by rewrite IH.
Qed.

Lemma str_drop_app_len p s : drop (len p) (p +:+ s) = s.
Proof. induction p as [|c p IH]; [by destruct s|]. by rewrite str_app_cons. Qed.

Lemma startswith_spec s p : startswith s p = true ↔ starts_with s p.
Proof.
  unfold startswith, starts_with. rewrite bool_decide_eq_true. split.
  - intros Hp. exists (drop (len p) s). by rewrite <- Hp at 1; rewrite str_take_drop.
  - intros [r ->]. apply str_take_app_len.
Qed.

Lemma endswith_spec s x : endswith s x = true ↔ ends_with s x.
Proof.
  unfold endswith, ends_with.
  rewrite andb_true_iff, Nat.leb_le, bool_decide_eq_true. split.
  - intros [Hl Hx]. exists (take (len s - len x) s).
    set (n := len s - len x) in *. by rewrite <- Hx, str_take_drop.
  - intros [p ->]. rewrite len_app. split; [lia|].
    replace (len p + len x - len x) with (len p) by lia.
    apply str_drop_app_len.
Qed.

(** The character at a position past a known prefix. *)
Lemma get_app_len p s : String.get (len p) (p +:+ s) = String.get 0 s.
Proof. induction p as [|c p IH]; [done|]. by rewrite str_app_cons. Qed.

Lemma not_ends_with s x : endswith s x = false → ¬ ends_with s x.
Proof. intros E Hx. apply endswith_spec in Hx. congruence. Qed.


Lemma str_len_app s t : str_len (s +:+ t) = str_len s + str_len t.
Proof.
  induction s as [|c s IH]; [done|]. rewrite str_app_cons. simpl.
  rewrite IH. lia.
Qed.

(** A slice is a prefix, cut before a character, and has the number of
    characters asked for when the string has that many. *)
Lemma slice_to_prefix n x :
  ∃ r, x = slice_to n x +:+ r ∧ starts_char r
       ∧ (n ≤ str_len x → str_len (slice_to n x) = n).
Proof.
  revert n. induction x as [|c x IH]; intros n.
  - exists "". simpl. split_and!; [done|done|lia].
  - simpl. destruct (is_continuation c) eqn:Ec.
    + destruct (IH n) as (r & Hx & Hr & Hn). exists r.
      rewrite str_app_cons, <- Hx. simpl. rewrite Ec. by split_and!.
    + destruct n as [|n].
      * exists (String c x). simpl. split_and!; [done|done|done].
      * destruct (IH n) as (r & Hx & Hr & Hn). exists r.
        rewrite str_app_cons, <- Hx. simpl. rewrite Ec.
        split_and!; [done|done|]. intros Hle. rewrite Hn; lia.
Qed.

Lemma slice_to_app p r :
  starts_char r → slice_to (str_len p) (p +:+ r) = p.
Proof.
  intros Hr. induction p as [|c p IH].
  - rewrite str_app_empty_l. simpl. destruct r as [|d r]; [done|].
    simpl in *. by rewrite Hr.
  - rewrite str_app_cons. simpl.
    destruct (is_continuation c); simpl; by rewrite IH.
Qed.


Lemma entry_matches_spec pkg_name x :
  entry_matches pkg_name x = true ↔ lower_prefix pkg_name x.
Proof.
  unfold entry_matches, lower_prefix.
  rewrite andb_true_iff, Nat.leb_le, bool_decide_eq_true. split.
  - intros [Hlen Hp].
    destruct (slice_to_prefix (str_len pkg_name) x) as (r & Hx & Hr & Hn).
    exists (slice_to (str_len pkg_name) x), r. split_and!; auto.
  - intros (p & r & -> & Hlen & Hr & Hlow). rewrite str_len_app, <- Hlen.
    split; [lia|]. by rewrite slice_to_app.
Qed.

Lemma not_lower_prefix pkg_name x :
  entry_matches pkg_name x = false → ¬ lower_prefix pkg_name x.
Proof. intros E Hx. apply entry_matches_spec in Hx. congruence. Qed.



Lemma not_occurs_empty sep : ¬ occurs sep "".
Proof. intros (p & r & E). by destruct p. Qed.

Lemma not_occurs_cons sep c s : c ≠ sep → ¬ occurs sep s → ¬ occurs sep (String c s).
Proof.
  intros Hc Hs (p & r & E). destruct p as [|d p].
  - rewrite str_app_empty_l in E. congruence.
  - rewrite str_app_cons in E. injection E as -> ->. apply Hs. by exists p, r.
Qed.

Lemma split_nonempty sep s : split sep s ≠ [].
Proof.
  destruct s as [|c s]; simpl; [done|].
  destruct (decide (c = sep)); [done|]. by destruct (split sep s).
Qed.

(** Splitting loses nothing: the pieces, with the separator between
    them, are the string. *)
Lemma intercalate_split sep s : intercalate sep (split sep s) = s.
Proof.
  induction s as [|c s IH]; [done|]. simpl.
  destruct (decide (c = sep)) as [->|Hc].
  - pose proof (split_nonempty sep s) as Hne.
    simpl. destruct (split sep s) as [|w ws]; [done|].
    by rewrite IH, str_app_empty_l.
  - pose proof (split_nonempty sep s) as Hne.
    destruct (split sep s) as [|w ws]; [done|].
    simpl in *. destruct ws; [by rewrite IH|].
    by rewrite str_app_cons, IH.
Qed.

(** No piece holds the separator. *)
Lemma split_pieces_free sep s : Forall (λ w, ¬ occurs sep w) (split sep s).
Proof.
  induction s as [|c s IH]; simpl.
  - constructor; [apply not_occurs_empty|constructor].
  - destruct (decide (c = sep)) as [->|Hc].
    + constructor; [apply not_occurs_empty|done].
    + pose proof (split_nonempty sep s) as Hne.
      destruct (split sep s) as [|w ws]; [done|].
      inversion IH; subst. constructor; [by apply not_occurs_cons|done].
Qed.

Lemma last_of_pieces sep l x :
  Forall (λ w, ¬ occurs sep w) l → last l = Some x →
  last_piece sep (intercalate sep l) x.
Proof.
  revert x. induction l as [|w ws IH]; intros x Hf Hl; [done|].
  inversion Hf as [|? ? Hw Hws]; subst.
  destruct ws as [|w' ws].
  - simpl in *. injection Hl as ->. split; [done|by left].
  - rewrite last_cons_cons in Hl. destruct (IH x Hws Hl) as [Hx Hs].
    split; [done|]. right. change (intercalate sep (w :: w' :: ws))
      with (w +:+ String sep (intercalate sep (w' :: ws))).
    destruct Hs as [->|[p ->]]; [by exists w|].
    exists (w +:+ String sep p). by rewrite str_app_assoc, str_app_cons.
Qed.

Lemma first_of_pieces sep l x :
  Forall (λ w, ¬ occurs sep w) l → head l = Some x →
  first_piece sep (intercalate sep l) x.
Proof.
  intros Hf Hh. destruct l as [|w ws]; [done|]. injection Hh as ->.
  inversion Hf; subst. split; [done|].
  destruct ws as [|w' ws]; [by left|]. right. by eexists.
Qed.

Lemma getitem_last {A} (l : list A) : l ≠ [] → getitem l (-1) = last l.
Proof.
  intros Hne. unfold getitem. simpl.
  destruct l as [|a l]; [done|].
  rewrite last_lookup.
  destruct (Z.leb_spec (- Z.of_nat (length (a :: l))) (-1)) as [_|Hlt].
  - f_equal. simpl length. lia.
  - simpl length in Hlt. lia.
Qed.

Lemma getitem_first {A} (l : list A) : getitem l 0 = head l.
Proof. unfold getitem. simpl. by destruct l. Qed.

(** [s.split(sep)[-1]] is the last piece of [s]. *)
Lemma split_last sep s :
  ∃ x, getitem (split sep s) (-1) = Some x ∧ last_piece sep s x.
Proof.
  pose proof (split_nonempty sep s) as Hne.
  rewrite (getitem_last _ Hne).
  destruct (last (split sep s)) as [x|] eqn:E.
  - exists x. split; [done|]. rewrite <- (intercalate_split sep s) at 1.
    apply last_of_pieces; [apply split_pieces_free|done].
  - apply last_None in E. done.
Qed.

(** [s.split(sep)[0]] is the first piece of [s]. *)
Lemma split_first sep s :
  ∃ x, getitem (split sep s) 0 = Some x ∧ first_piece sep s x.
Proof.
  pose proof (split_nonempty sep s) as Hne.
  rewrite getitem_first.
  destruct (split sep s) as [|x l] eqn:E; [done|].
  exists x. split; [done|]. rewrite <- (intercalate_split sep s) at 1.
  apply first_of_pieces; [apply split_pieces_free|by rewrite E].
Qed.

Lemma last_char_app s x : x ≠ "" → last_char (s +:+ x) = last_char x.
Proof.
  intros Hx. induction s as [|c s IH]; [done|].
  rewrite str_app_cons. simpl. rewrite IH.
  destruct x as [|d x]; [done|]. simpl. by destruct (last_char x).
Qed.

Lemma ends_with_last_char s x : x ≠ "" → ends_with s x → last_char s = last_char x.
Proof. intros Hx [p ->]. by apply last_char_app. Qed.

End Strings.

(** ** The printed lines are told apart *)

Section Messages.

(** Strips a literal prefix from both sides of an equation. *)
Ltac literal_heads H :=
  repeat (rewrite !str_app_cons in H || rewrite !str_app_empty_l in H);
  try discriminate H; try (injection H as H).

Lemma missing_old_tail_ne pkg_name rest :
  "the file " +:+ pkg_name +:+ "/meta.yml.old is missing, FAILED!"
  ≠ pkg_name +:+ "/meta.yml:" +:+ rest.
Proof.
  intros E.
  assert (String.get (len ("the file " +:+ pkg_name))
            (("the file " +:+ pkg_name) +:+ "/meta.yml.old is missing, FAILED!")
          = String.get (len (pkg_name +:+ "/meta.yml"))
              ((pkg_name +:+ "/meta.yml") +:+ (":" +:+ rest))) as G.
  { rewrite !str_app_assoc. change ("/meta.yml" +:+ ":" +:+ rest)
      with ("/meta.yml:" +:+ rest). rewrite <- E. f_equal.
    rewrite !len_app. simpl. lia. }
  rewrite !get_app_len in G. discriminate G.
Qed.

Lemma pkg_info_ne_archive pkg_name info packed_name :
  pkg_info_sha_msg pkg_name info ≠ archive_sha_msg pkg_name packed_name.
Proof.
  unfold pkg_info_sha_msg, archive_sha_msg. intros E.
  apply (inj (String.app _)) in E. literal_heads E.
  apply (inj (String.app _)) in E. literal_heads E.
Qed.

Lemma pkg_info_ne_missing pkg_name info :
  pkg_info_sha_msg pkg_name info ≠ missing_old_msg pkg_name.
Proof.
  unfold pkg_info_sha_msg, missing_old_msg. intros E.
  apply (inj (String.app _)) in E. literal_heads E.
  symmetry in E. revert E.
  change ("/meta.yml:PackageInfoSHA256 is not the SHA256 of " +:+ info +:+ ", FAILED!")
    with ("/meta.yml:" +:+ "PackageInfoSHA256 is not the SHA256 of " +:+ info +:+ ", FAILED!").
  apply missing_old_tail_ne.
Qed.

Lemma archive_ne_missing pkg_name packed_name :
  archive_sha_msg pkg_name packed_name ≠ missing_old_msg pkg_name.
Proof.
  unfold archive_sha_msg, missing_old_msg. intros E.
  apply (inj (String.app _)) in E. literal_heads E.
  symmetry in E. revert E.
  change ("/meta.yml:ArchiveSHA256 is not the SHA256 of " +:+ packed_name +:+ ", FAILED!")
    with ("/meta.yml:" +:+ "ArchiveSHA256 is not the SHA256 of " +:+ packed_name +:+ ", FAILED!").
  apply missing_old_tail_ne.
Qed.

Lemma not_outcome_line pkg_name m :
  m ≠ ok_msg pkg_name → m ≠ failed_msg pkg_name →
  is_outcome_line pkg_name m = false.
Proof.
  intros Hok Hfailed. unfold is_outcome_line.
  by rewrite !bool_decide_eq_false_2.
Qed.

(** A line that goes on after the package name with something other
    than [": validat"] is no outcome line. *)
Ltac by_heads :=
  apply not_outcome_line; unfold ok_msg, failed_msg; intros E;
  apply (inj (String.app _)) in E; literal_heads E.

Ltac by_length E :=
  apply (f_equal len) in E; rewrite !len_app in E; simpl in E; lia.

Lemma unpacking_not_outcome pkg_name archive_fname unpack_dir :
  is_outcome_line pkg_name (unpacking_msg pkg_name archive_fname unpack_dir)
  = false.
Proof. unfold unpacking_msg. by_heads. Qed.

Lemma bad_extension_not_outcome pkg_name ext archive_fname :
  is_outcome_line pkg_name (bad_extension_msg pkg_name ext archive_fname)
  = false.
Proof. unfold bad_extension_msg. by_heads. Qed.

Lemma missing_old_not_outcome pkg_name :
  is_outcome_line pkg_name (missing_old_msg pkg_name) = false.
Proof. unfold missing_old_msg. by_heads. Qed.

Lemma pkg_info_not_outcome pkg_name info :
  is_outcome_line pkg_name (pkg_info_sha_msg pkg_name info) = false.
Proof. unfold pkg_info_sha_msg. by_heads; by_length E. Qed.

Lemma archive_not_outcome pkg_name packed_name :
  is_outcome_line pkg_name (archive_sha_msg pkg_name packed_name) = false.
Proof. unfold archive_sha_msg. by_heads; by_length E. Qed.

Lemma undetermined_not_outcome pkg_name :
  is_outcome_line pkg_name undetermined_msg = false.
Proof.
  apply not_outcome_line; unfold ok_msg, failed_msg; intros E.
  - assert (len pkg_name = 39) as Hl by by_length E.
    pose proof (get_app_len pkg_name ": validated ok!") as G.
    rewrite <- E, Hl in G. discriminate G.
  - assert (len pkg_name = 34) as Hl by by_length E.
    pose proof (get_app_len pkg_name ": validation FAILED!") as G.
    rewrite <- E, Hl in G. discriminate G.
Qed.

Lemma ok_ne_failed pkg_name : ok_msg pkg_name ≠ failed_msg pkg_name.
Proof.
  unfold ok_msg, failed_msg. intros E.
  apply (inj (String.app _)) in E. discriminate E.
Qed.

Lemma pkg_info_ends_failed pkg_name info :
  ends_with (pkg_info_sha_msg pkg_name info) ", FAILED!".
Proof.
  exists (pkg_name +:+ ": " +:+ pkg_name
          +:+ "/meta.yml:PackageInfoSHA256 is not the SHA256 of " +:+ info).
  unfold pkg_info_sha_msg. by rewrite !str_app_assoc.
Qed.

Lemma archive_ends_failed pkg_name packed_name :
  ends_with (archive_sha_msg pkg_name packed_name) ", FAILED!".
Proof.
  exists (pkg_name +:+ ": " +:+ pkg_name
          +:+ "/meta.yml:ArchiveSHA256 is not the SHA256 of " +:+ packed_name).
  unfold archive_sha_msg. by rewrite !str_app_assoc.
Qed.

Lemma missing_old_ends_failed pkg_name :
  ends_with (missing_old_msg pkg_name) ", FAILED!".
Proof.
  exists (pkg_name +:+ ": the file " +:+ pkg_name
          +:+ "/meta.yml.old is missing").
  unfold missing_old_msg. by rewrite !str_app_assoc.
Qed.

End Messages.

(** ** Runs: lemmas *)

Section RunLemmas.
Context {W : Type} `{!Host W} `{!StrLower}.

Lemma outcome_eta {A} (o : Outcome W A) : Out (trace o) (world o) (result o) = o.
Proof. by destruct o. Qed.

Lemma run_bind {A B} (m : Prog A) (f : A → Prog B) (w : W) :
  run (bind m f) w = and_then (run m w) (λ a w', run (f a) w').
Proof.
  revert w. induction m as [a|e|c k IH]; intros w; simpl.
  - unfold and_then; simpl. by rewrite outcome_eta.
  - done.
  - destruct (handle c w) as [w' [x|e]]; [|done].
    rewrite IH. unfold and_then, after; simpl.
    by destruct (result (run (k x) w')).
Qed.

Lemma and_then_ext {A B} (o : Outcome W A) (f g : A → W → Outcome W B) :
  (∀ a w, f a w = g a w) → and_then o f = and_then o g.
Proof. intros E. unfold and_then. destruct (result o); [by rewrite E|done]. Qed.

Lemma and_then_assoc {A B C} (o : Outcome W A) (f : A → W → Outcome W B)
    (g : B → W → Outcome W C) :
  and_then (and_then o f) g = and_then o (λ a w, and_then (f a w) g).
Proof.
  unfold and_then. destruct (result o) as [a|e]; simpl; [|done].
  destruct (result (f a (world o))); simpl; [|done].
  by rewrite app_assoc.
Qed.

Lemma and_then_pure {A B} (a : A) (w : W) (f : A → W → Outcome W B) :
  and_then (Out [] w (Ok a)) f = f a w.
Proof. unfold and_then. simpl. apply outcome_eta. Qed.

Lemma trace_and_then {A B} (o : Outcome W A) (f : A → W → Outcome W B) :
  trace (and_then o f)
  = trace o ++ match result o with
               | Ok a => trace (f a (world o))
               | Err _ => []
               end.
Proof. unfold and_then. destruct (result o); simpl; [done|by rewrite app_nil_r]. Qed.

Lemma avoids_bind {A B} f (m : Prog A) (k : A → Prog B) :
  avoids f m → (∀ a, avoids f (k a)) → avoids f (bind m k).
Proof.
  intros Hm Hk. induction m as [a|e|c k' IH]; simpl in *; [auto|done|].
  destruct Hm as [Hc Hk']. split; [done|]. intros x. apply IH, Hk'.
Qed.

Lemma avoids_run {A} f (p : Prog A) (w : W) :
  avoids f p → List.filter f (trace (run p w)) = [].
Proof.
  revert w. induction p as [a|e|c k IH]; intros w Hp; simpl in *; [done..|].
  destruct Hp as [Hc Hk].
  destruct (handle c w) as [w' [x|e]]; simpl; rewrite Hc; [|done].
  by apply IH.
Qed.

Lemma result_and_then {A B} (o : Outcome W A) (f : A → W → Outcome W B) :
  result (and_then o f)
  = match result o with
    | Ok a => result (f a (world o))
    | Err e => Err e
    end.
Proof. unfold and_then. by destruct (result o). Qed.

Lemma filter_nil_omap (f : Cmd → bool) {B} (g : Cmd → option B) t :
  (∀ c, f c = false → g c = None) → List.filter f t = [] → omap g t = [].
Proof.
  intros Hfg. induction t as [|c t IH]; [done|]. cbn.
  destruct (f c) eqn:E; [done|]. intros Ht. rewrite (Hfg c E). by apply IH.
Qed.

Lemma and_then_ok {A B} (o : Outcome W A) (f : A → W → Outcome W B) a :
  result o = Ok a →
  and_then o f
  = Out (trace o ++ trace (f a (world o))) (world (f a (world o)))
        (result (f a (world o))).
Proof. intros Ho. unfold and_then. by rewrite Ho. Qed.

Lemma and_then_err {A B} (o : Outcome W A) (f : A → W → Outcome W B) e :
  result o = Err e → and_then o f = Out (trace o) (world o) (Err e).
Proof. intros Ho. unfold and_then. by rewrite Ho. Qed.

Lemma run_call (c : Cmd) (w : W) :
  run (call c) w = Out [c] (handle c w).1 (handle c w).2.
Proof. unfold call. simpl. by destruct (handle c w) as [w' [x|e]]. Qed.

(** One step of a pair of runs that start with the same call. *)
Ltac same_step :=
  etrans; [apply run_bind|];
  symmetry; etrans; [rewrite run_bind, !and_then_assoc; reflexivity|];
  symmetry; apply and_then_ext; intros ? ?.

(** [main] is its first thirteen lines, then [validate_package], then
    the external validation when the flag is [True]. *)
Lemma run_main pkg_name w :
  run (main pkg_name) w
  = and_then (field_validation pkg_name w)
      (λ '(passed, unpacked_name) w2,
         if passed then run (main_external pkg_name unpacked_name) w2
         else Out [] w2 (Ok tt)).
Proof.
  unfold field_validation, main, main_setup, main_external. cbv zeta.
  do 9 same_step.
  change (run (Ret ?x) ?w) with (Out (W:=W) [] w (Ok x)).
  rewrite and_then_pure, run_bind, and_then_assoc.
  apply and_then_ext. intros passed w'. rewrite and_then_pure.
  by destruct passed.
Qed.

End RunLemmas.

(** ** Field validation *)

Section FieldValidation.
Context {W : Type} `{!Host W}.

(** The run of [validate_package], case by case. *)
Lemma run_validate_package pkg_name unpacked_name packed_name pkg_json w :
  run (validate_package pkg_name unpacked_name packed_name pkg_json) w
  = match unpacked_name with
    | None => Out [] w (Err TypeError)
    | Some unpacked =>
        let info := join unpacked "PackageInfo.g" in
        let old := join pkg_name "meta.json.old" in
        match pkg_json !! "PackageInfoSHA256" with
        | None => Out [] w (Err (KeyError "PackageInfoSHA256"))
        | Some r1 =>
            match host_sha256 w info with
            | Err e => Out [Sha256 info] w (Err e)
            | Ok h1 =>
                let t1 := Sha256 info
                          :: warn_if (bool_decide (r1 ≠ h1))
                                     (pkg_info_sha_msg pkg_name info) in
                match pkg_json !! "ArchiveSHA256" with
                | None => Out t1 w (Err (KeyError "ArchiveSHA256"))
                | Some r2 =>
                    match host_sha256 w packed_name with
                    | Err e => Out (t1 ++ [Sha256 packed_name]) w (Err e)
                    | Ok h2 =>
                        Out (t1 ++ Sha256 packed_name
                               :: warn_if (bool_decide (r2 ≠ h2))
                                    (archive_sha_msg pkg_name packed_name)
                               ++ OsPathExists old
                               :: warn_if (negb (host_exists w old))
                                    (missing_old_msg pkg_name))
                            w
                            (Ok (negb (bool_decide (r1 ≠ h1))
                                 && negb (bool_decide (r2 ≠ h2))
                                 && host_exists w old))
                    end
                end
            end
        end
    end.
Proof.
  unfold validate_package, subscript. destruct unpacked_name as [u|]; [|done].
  simpl. destruct (pkg_json !! "PackageInfoSHA256") as [r1|]; simpl; [|done].
  destruct (host_sha256 w (join u "PackageInfo.g")) as [h1|e]; simpl; [|done].
  destruct (bool_decide (r1 ≠ h1)); simpl;
    (destruct (pkg_json !! "ArchiveSHA256") as [r2|]; simpl; [|done]);
    (destruct (host_sha256 w packed_name) as [h2|e]; simpl; [|done]);
    destruct (bool_decide (r2 ≠ h2)); simpl;
    by destruct (host_exists w (join pkg_name "meta.json.old")).
Qed.

(** What [validate_package] prints: warnings only, each ending in
    [, FAILED!], and at least one when it returns [False]. *)
Lemma validate_package_prints pkg_name unpacked_name packed_name pkg_json w :
  let checks :=
    run (validate_package pkg_name unpacked_name packed_name pkg_json) w in
  console (trace checks) = warnings (trace checks)
  ∧ Forall (λ m, ends_with m ", FAILED!") (warnings (trace checks))
  ∧ (result checks = Ok false → warnings (trace checks) ≠ []).
Proof.
  intros checks. subst checks. rewrite run_validate_package. cbv zeta.
  pose proof (pkg_info_ends_failed pkg_name) as H1.
  pose proof (archive_ends_failed pkg_name packed_name) as H2.
  pose proof (missing_old_ends_failed pkg_name) as H3.
  destruct unpacked_name as [u|]; [|by split_and!].
  destruct (pkg_json !! "PackageInfoSHA256") as [r1|]; [|by split_and!].
  destruct (host_sha256 w (join u "PackageInfo.g")) as [h1|]; [|by split_and!].
  destruct (bool_decide (r1 ≠ h1));
    (destruct (pkg_json !! "ArchiveSHA256") as [r2|];
      [|split_and!; [done|repeat constructor; auto|done]]);
    (destruct (host_sha256 w packed_name) as [h2|];
      [|split_and!; [done|repeat constructor; auto|done]]);
    destruct (bool_decide (r2 ≠ h2));
    destruct (host_exists w (join pkg_name "meta.json.old"));
    (split_and!; [done|repeat constructor; auto|done]).
Qed.

(** C1. [validate_package] returns [True] exactly when the SHA-256 of
    [PackageInfo.g] under the unpacked directory is the recorded
    [PackageInfoSHA256], the SHA-256 of the archive is the recorded
    [ArchiveSHA256], and [meta.json.old] exists in the package
    directory.  In every other case it returns [False] or raises. *)
Theorem validate_package_pass_iff (pkg_name : string)
    (unpacked_name : option string) (packed_name : string)
    (pkg_json : record) (w : W) :
  result (run (validate_package pkg_name unpacked_name packed_name pkg_json) w)
    = Ok true
  ↔ manifest_hash_ok w unpacked_name pkg_json
    ∧ archive_hash_ok w packed_name pkg_json
    ∧ snapshot_present w pkg_name.
Proof.
  unfold manifest_hash_ok, archive_hash_ok, snapshot_present, validate_package.
  split.
  - destruct unpacked_name as [u|]; simpl; [|discriminate].
    unfold subscript.
    destruct (pkg_json !! "PackageInfoSHA256") as [r1|]; simpl; [|discriminate].
    destruct (host_sha256 w (join u "PackageInfo.g")) as [h1|] eqn:Hh1; simpl;
      [|discriminate].
    destruct (decide (r1 = h1)) as [->|Hne1];
      [rewrite bool_decide_eq_false_2 by (intros Hne; by apply Hne)
      |rewrite bool_decide_eq_true_2 by done]; simpl;
      (destruct (pkg_json !! "ArchiveSHA256") as [r2|]; simpl; [|discriminate]);
      (destruct (host_sha256 w packed_name) as [h2|]; simpl; [|discriminate]);
      (destruct (decide (r2 = h2)) as [->|Hne2];
        [rewrite bool_decide_eq_false_2 by (intros Hne; by apply Hne)
        |rewrite bool_decide_eq_true_2 by done]); simpl;
      destruct (host_exists w (join pkg_name "meta.json.old")); simpl;
      try discriminate.
    intros _. split; [by exists u, h1|]. split; [by exists h2|done].
  - intros [(u & h1 & -> & Hh1 & Hr1) [(h2 & Hh2 & Hr2) He]]. simpl.
    unfold subscript. rewrite Hr1; simpl. rewrite Hh1; simpl.
    rewrite bool_decide_eq_false_2 by (intros Hne; by apply Hne); simpl.
    rewrite Hr2; simpl. rewrite Hh2; simpl.
    rewrite bool_decide_eq_false_2 by (intros Hne; by apply Hne); simpl.
    by rewrite He.
Qed.

(** C3. The three checks accumulate.  Whenever both hashes can be
    computed and both fields are recorded, the run asks for the manifest
    hash, the archive hash and the existence of [meta.json.old], in that
    order and whatever the earlier checks found; each failing check is
    followed by its own warning, the three warnings are pairwise
    different lines, and the result is the conjunction of the checks. *)
Theorem validate_package_checks_accumulate (pkg_name unpacked packed_name : string)
    (pkg_json : record) (w : W) (r1 r2 h1 h2 : string) :
  pkg_json !! "PackageInfoSHA256" = Some r1 →
  pkg_json !! "ArchiveSHA256" = Some r2 →
  host_sha256 w (join unpacked "PackageInfo.g") = Ok h1 →
  host_sha256 w packed_name = Ok h2 →
  let info := join unpacked "PackageInfo.g" in
  let old := join pkg_name "meta.json.old" in
  let bad1 := bool_decide (r1 ≠ h1) in
  let bad2 := bool_decide (r2 ≠ h2) in
  let bad3 := negb (host_exists w old) in
  let o := run (validate_package pkg_name (Some unpacked) packed_name pkg_json) w in
  trace o = Sha256 info :: warn_if bad1 (pkg_info_sha_msg pkg_name info)
            ++ Sha256 packed_name :: warn_if bad2 (archive_sha_msg pkg_name packed_name)
            ++ OsPathExists old :: warn_if bad3 (missing_old_msg pkg_name)
  ∧ result o = Ok (negb bad1 && negb bad2 && negb bad3)
  ∧ world o = w
  ∧ pkg_info_sha_msg pkg_name info ≠ archive_sha_msg pkg_name packed_name
  ∧ pkg_info_sha_msg pkg_name info ≠ missing_old_msg pkg_name
  ∧ archive_sha_msg pkg_name packed_name ≠ missing_old_msg pkg_name.
Proof.
  intros Hr1 Hr2 Hh1 Hh2 info old bad1 bad2 bad3 o.
  assert (o = Out (Sha256 info :: warn_if bad1 (pkg_info_sha_msg pkg_name info)
            ++ Sha256 packed_name :: warn_if bad2 (archive_sha_msg pkg_name packed_name)
            ++ OsPathExists old :: warn_if bad3 (missing_old_msg pkg_name))
            w (Ok (negb bad1 && negb bad2 && negb bad3))) as ->.
  { subst o bad1 bad2 bad3 info old. unfold validate_package, subscript. simpl.
    rewrite Hr1. simpl. rewrite Hh1. simpl.
    destruct (bool_decide (r1 ≠ h1)); simpl;
      rewrite Hr2; simpl; rewrite Hh2; simpl;
      destruct (bool_decide (r2 ≠ h2)); simpl;
      destruct (host_exists w (join pkg_name "meta.json.old")); reflexivity. }
  split_and!; try done.
  - apply pkg_info_ne_archive.
  - apply pkg_info_ne_missing.
  - apply archive_ne_missing.
Qed.

End FieldValidation.

(** ** Extraction and directory resolution *)

Section Unpacking.
Context {W : Type} `{!Host W} `{!StrLower}.

Lemma run_unpack_archive_ready unpack_dir pkg_name archive_fname w ext :
  getitem (split "." archive_fname) (-1) = Some ext →
  staging_ready w unpack_dir →
  run (unpack_archive unpack_dir pkg_name archive_fname) w =
    let w1 := staged w unpack_dir in
    let pre := staging_calls w unpack_dir
               ++ [Notice (unpacking_msg pkg_name archive_fname unpack_dir)] in
    if endswith ext "gz" || endswith ext "bz2" then
      Out (pre ++ [TarExtractAll archive_fname unpack_dir])
          (host_tar w1 archive_fname unpack_dir).1
          (host_tar w1 archive_fname unpack_dir).2
    else if endswith ext "zip" then
      Out (pre ++ [ZipExtractAll archive_fname unpack_dir])
          (host_zip w1 archive_fname unpack_dir).1
          (host_zip w1 archive_fname unpack_dir).2
    else
      Out (pre ++ [Notice (bad_extension_msg pkg_name ext archive_fname)])
          w1 (Ok tt).
Proof.
  intros Hext Hready. unfold unpack_archive, staged, staging_calls, index.
  simpl. destruct (host_exists w unpack_dir) eqn:He; simpl.
  - rewrite Hext. simpl.
    destruct (endswith ext "gz" || endswith ext "bz2"); simpl.
    { by destruct (host_tar w archive_fname unpack_dir) as [w2 [[]|e]]. }
    destruct (endswith ext "zip"); simpl; [|done].
    by destruct (host_zip w archive_fname unpack_dir) as [w2 [[]|e]].
  - destruct Hready as [?|[w1 Hmk]]; [congruence|]. rewrite Hmk. simpl.
    rewrite Hext. simpl.
    destruct (endswith ext "gz" || endswith ext "bz2"); simpl.
    { by destruct (host_tar w1 archive_fname unpack_dir) as [w2 [[]|e]]. }
    destruct (endswith ext "zip"); simpl; [|done].
    by destruct (host_zip w1 archive_fname unpack_dir) as [w2 [[]|e]].
Qed.

Lemma run_unpack_archive_mkdir_fails unpack_dir pkg_name archive_fname w w1 e :
  host_exists w unpack_dir = false →
  host_mkdir w unpack_dir = (w1, Err e) →
  run (unpack_archive unpack_dir pkg_name archive_fname) w
  = Out [OsPathExists unpack_dir; OsMkdir unpack_dir] w1 (Err e).
Proof.
  intros He Hmk. unfold unpack_archive. simpl. rewrite He. simpl. by rewrite Hmk.
Qed.

Lemma staging_cases w unpack_dir :
  staging_ready w unpack_dir
  ∨ ∃ w1 e, host_exists w unpack_dir = false
            ∧ host_mkdir w unpack_dir = (w1, Err e).
Proof.
  unfold staging_ready. destruct (host_exists w unpack_dir); [by left; left|].
  destruct (host_mkdir w unpack_dir) as [w1 [[]|e]]; [left; right|right]; eauto.
Qed.

Lemma staging_calls_no_extraction w unpack_dir :
  extractions (staging_calls w unpack_dir) = [].
Proof. unfold staging_calls. by destruct (host_exists w unpack_dir). Qed.

Lemma suffix_tests ext :
  (endswith ext "gz" || endswith ext "bz2" = true
     ↔ ends_with ext "gz" ∨ ends_with ext "bz2")
  ∧ (endswith ext "zip" = true ↔ ends_with ext "zip")
  ∧ (ends_with ext "zip" → endswith ext "gz" || endswith ext "bz2" = false).
Proof.
  split_and!.
  - by rewrite orb_true_iff, !endswith_spec.
  - apply endswith_spec.
  - intros Hz. apply (ends_with_last_char _ "zip") in Hz; [|done].
    apply not_true_is_false. rewrite orb_true_iff, !endswith_spec.
    intros [Hg|Hb].
    + apply (ends_with_last_char _ "gz") in Hg; [|done].
      rewrite Hg in Hz. discriminate Hz.
    + apply (ends_with_last_char _ "bz2") in Hb; [|done].
      rewrite Hb in Hz. discriminate Hz.
Qed.

(** C6. The extension [ext] of the archive is the last of the pieces of
    its name between dots.  When [ext] ends in none of [gz], [bz2] and
    [zip], [unpack_archive] makes no extraction call and, the staging
    directory being there or created, returns normally with the skip
    notice as its last call.  When [ext] ends in [gz] or [bz2] the one
    extraction call is the tar one, when it ends in [zip] it is the zip
    one, and the call's outcome is that of [unpack_archive]. *)
Theorem unpack_archive_dispatch (unpack_dir pkg_name archive_fname : string)
    (w : W) :
  ∃ ext, getitem (split "." archive_fname) (-1) = Some ext
    ∧ last_piece "." archive_fname ext ∧
    let o := run (unpack_archive unpack_dir pkg_name archive_fname) w in
    (¬ ends_with ext "gz" → ¬ ends_with ext "bz2" → ¬ ends_with ext "zip" →
       extractions (trace o) = []
       ∧ (staging_ready w unpack_dir →
            result o = Ok tt
            ∧ last (trace o)
              = Some (Notice (bad_extension_msg pkg_name ext archive_fname))))
    ∧ (ends_with ext "gz" ∨ ends_with ext "bz2" → staging_ready w unpack_dir →
         extractions (trace o) = [TarExtractAll archive_fname unpack_dir]
         ∧ result o = (host_tar (staged w unpack_dir) archive_fname unpack_dir).2)
    ∧ (ends_with ext "zip" → staging_ready w unpack_dir →
         extractions (trace o) = [ZipExtractAll archive_fname unpack_dir]
         ∧ result o = (host_zip (staged w unpack_dir) archive_fname unpack_dir).2).
Proof.
  destruct (split_last "." archive_fname) as (ext & Hext & Hlast).
  exists ext. split; [done|]. split; [done|]. intros o.
  destruct (suffix_tests ext) as (Htar & Hzip & Hexcl).
  assert (∀ pre : list Cmd, ∀ c,
    extractions ((staging_calls w unpack_dir ++ pre) ++ [c])
    = extractions pre ++ extractions [c]) as Hfilter.
  { intros pre c. unfold extractions. rewrite !List.filter_app.
    fold (extractions (staging_calls w unpack_dir)).
    by rewrite staging_calls_no_extraction. }
  split_and!.
  - intros Hg Hb Hz.
    assert (endswith ext "gz" || endswith ext "bz2" = false) as Et
      by (apply not_true_is_false; rewrite Htar; tauto).
    assert (endswith ext "zip" = false) as Ez
      by (apply not_true_is_false; rewrite Hzip; tauto).
    destruct (staging_cases w unpack_dir) as [Hready|(w1 & e & He & Hmk)].
    + subst o. rewrite (run_unpack_archive_ready _ _ _ _ _ Hext Hready).
      simpl. rewrite Et, Ez. simpl. split; [by rewrite Hfilter|].
      intros _. split; [done|]. by rewrite last_snoc.
    + subst o. rewrite (run_unpack_archive_mkdir_fails _ _ _ _ _ _ He Hmk).
      split; [done|]. intros [Hx|[w2 Hw2]]; congruence.
  - intros Ht Hready. apply Htar in Ht.
    subst o. rewrite (run_unpack_archive_ready _ _ _ _ _ Hext Hready).
    simpl. rewrite Ht. simpl. by rewrite Hfilter.
  - intros Hz Hready. pose proof (Hexcl Hz) as Et. apply Hzip in Hz.
    subst o. rewrite (run_unpack_archive_ready _ _ _ _ _ Hext Hready).
    simpl. rewrite Et, Hz. simpl. by rewrite Hfilter.
Qed.

(** C9. The staging directory comes first.  Whatever the extension, the
    run starts with the existence test and, when the directory is
    absent, [os.mkdir]; the unpacking notice follows.  With an extension
    that is not recognised nothing else happens but the skip notice: the
    world left behind is the one [os.mkdir] left (the initial one when
    the directory was there). *)
Theorem unpack_archive_staging_first (unpack_dir pkg_name archive_fname : string)
    (w : W) :
  let o := run (unpack_archive unpack_dir pkg_name archive_fname) w in
  let notice := Notice (unpacking_msg pkg_name archive_fname unpack_dir) in
  (host_exists w unpack_dir = false →
     ∃ rest, trace o = OsPathExists unpack_dir :: OsMkdir unpack_dir :: rest)
  ∧ (staging_ready w unpack_dir →
       ∃ rest, trace o = staging_calls w unpack_dir ++ notice :: rest)
  ∧ ∃ ext, getitem (split "." archive_fname) (-1) = Some ext
      ∧ last_piece "." archive_fname ext ∧
      (¬ ends_with ext "gz" → ¬ ends_with ext "bz2" → ¬ ends_with ext "zip" →
       staging_ready w unpack_dir →
         trace o = staging_calls w unpack_dir
                   ++ [notice; Notice (bad_extension_msg pkg_name ext archive_fname)]
         ∧ world o = staged w unpack_dir
         ∧ result o = Ok tt).
Proof.
  intros o notice.
  destruct (split_last "." archive_fname) as (ext & Hext & Hlast).
  destruct (suffix_tests ext) as (Htar & Hzip & _).
  split_and!.
  - intros He. destruct (staging_cases w unpack_dir) as [Hready|(w1 & e & _ & Hmk)].
    + subst o. rewrite (run_unpack_archive_ready _ _ _ _ _ Hext Hready).
      unfold staging_calls. rewrite He. simpl.
      destruct (endswith ext "gz" || endswith ext "bz2");
        [|destruct (endswith ext "zip")]; simpl; eauto.
    + subst o. rewrite (run_unpack_archive_mkdir_fails _ _ _ _ _ _ He Hmk).
      simpl. eauto.
  - intros Hready. subst o.
    rewrite (run_unpack_archive_ready _ _ _ _ _ Hext Hready). simpl.
    destruct (endswith ext "gz" || endswith ext "bz2");
      [|destruct (endswith ext "zip")]; simpl;
      rewrite <- app_assoc; simpl; eauto.
  - exists ext. split; [done|]. split; [done|]. intros Hg Hb Hz Hready.
    assert (endswith ext "gz" || endswith ext "bz2" = false) as Et
      by (apply not_true_is_false; rewrite Htar; tauto).
    assert (endswith ext "zip" = false) as Ez
      by (apply not_true_is_false; rewrite Hzip; tauto).
    subst o. rewrite (run_unpack_archive_ready _ _ _ _ _ Hext Hready).
    simpl. rewrite Et, Ez. simpl. by rewrite <- app_assoc.
Qed.

Lemma scan_entries_spec unpack_dir pkg_name entries :
  match scan_entries unpack_dir pkg_name entries with
  | Some path =>
      ∃ before x rest, entries = before ++ x :: rest
        ∧ Forall (λ y, ¬ lower_prefix pkg_name y) before
        ∧ lower_prefix pkg_name x
        ∧ path = join unpack_dir x
  | None => Forall (λ y, ¬ lower_prefix pkg_name y) entries
  end.
Proof.
  induction entries as [|x rest IH]; simpl; [done|].
  destruct (entry_matches pkg_name x) eqn:E.
  - apply entry_matches_spec in E. by exists [], x, rest.
  - assert (¬ lower_prefix pkg_name x) as Hx.
    { intros Hm. apply entry_matches_spec in Hm. congruence. }
    destruct (scan_entries unpack_dir pkg_name rest) as [path|].
    + destruct IH as (before & y & rest' & -> & Hb & Hy & ->).
      exists (x :: before), y, rest'. split_and!; try done. by constructor.
    + by constructor.
Qed.


(** C10. With no matching entry [unpacked_archive_name] returns [None],
    and [validate_package] given [None] raises [TypeError] at its first
    line, [join(unpacked_name, "PackageInfo.g")], before any hash is
    computed: it returns neither [True] nor [False]. *)
Theorem validate_package_raises_on_no_match (unpack_dir pkg_name packed_name : string)
    (pkg_json : record) (w : W) (entries : list string) :
  host_listdir w unpack_dir = Ok entries →
  Forall (λ y, ¬ lower_prefix pkg_name y) entries →
  result (run (unpacked_archive_name unpack_dir pkg_name) w) = Ok None
  ∧ (∀ w', run (validate_package pkg_name None packed_name pkg_json) w'
           = Out [] w' (Err TypeError))
  ∧ run (unpacked_name <- unpacked_archive_name unpack_dir pkg_name ;;
         validate_package pkg_name unpacked_name packed_name pkg_json) w
    = Out [OsListdir unpack_dir; Warning undetermined_msg] w (Err TypeError).
Proof.
  intros Hl Hnone.
  assert (scan_entries unpack_dir pkg_name entries = None) as Hs.
  { pose proof (scan_entries_spec unpack_dir pkg_name entries) as Hs.
    destruct (scan_entries unpack_dir pkg_name entries) as [path|]; [|done].
    destruct Hs as (before & x & rest & -> & _ & Hx & _).
    apply Forall_app in Hnone as [_ Hnone]. by inversion Hnone. }
  unfold unpacked_archive_name. simpl. rewrite Hl. simpl. rewrite Hs. simpl.
  done.
Qed.

End Unpacking.

(** ** The whole script *)

Section Main.
Context {W : Type} `{!Host W} `{!StrLower}.

Ltac avoiding :=
  repeat match goal with
    | |- avoids _ (bind _ _) => apply avoids_bind; [|intros ?]
    | |- avoids _ (call _) => split; [|done]
    | |- avoids _ (Do _ _) => split; [|intros ?]
    | |- True => exact I
    | |- avoids _ (Ret _) => exact I
    | |- avoids _ (Raise _) => exact I
    | |- avoids _ (lift_option _ ?o) => destruct o; simpl
    | |- avoids _ (if ?b then _ else _) => destruct b
    | |- avoids _ (match ?o with _ => _ end) => destruct o
    end.



(** Nothing before the [if] of [main] prints an outcome line of the
    package. *)
Lemma setup_avoids_outcome pkg_name :
  avoids (prints_outcome pkg_name) (main_setup pkg_name).
Proof.
  unfold main_setup, unpack_archive, unpacked_archive_name, subscript, index.
  cbv zeta. avoiding; try reflexivity; unfold prints_outcome; simpl.
  - apply unpacking_not_outcome.
  - apply bad_extension_not_outcome.
  - apply undetermined_not_outcome.
Qed.

Lemma validate_avoids_outcome pkg_name unpacked_name packed_name pkg_json :
  avoids (prints_outcome pkg_name)
    (validate_package pkg_name unpacked_name packed_name pkg_json).
Proof.
  unfold validate_package, os_path_join, subscript. cbv zeta.
  avoiding; try reflexivity; unfold prints_outcome; simpl.
  all: first [apply pkg_info_not_outcome | apply archive_not_outcome
             | apply missing_old_not_outcome].
Qed.

Lemma field_validation_avoids f pkg_name w :
  avoids f (main_setup pkg_name) →
  (∀ u p j, avoids f (validate_package pkg_name u p j)) →
  List.filter f (trace (field_validation pkg_name w)) = [].
Proof.
  intros Hs Hv. unfold field_validation. rewrite trace_and_then.
  rewrite List.filter_app, (avoids_run _ _ _ Hs), app_nil_l.
  destruct (result (run (main_setup pkg_name) w)) as [[[j p] u]|e]; [|done].
  rewrite trace_and_then, List.filter_app, (avoids_run _ _ _ (Hv u p j)).
  rewrite app_nil_l.
  by destruct (result (run (validate_package pkg_name u p j) _)).
Qed.

Lemma prints_failed_line pkg_name :
  prints_outcome pkg_name (Warning (failed_msg pkg_name)) = true.
Proof.
  unfold prints_outcome, is_outcome_line. simpl.
  rewrite (bool_decide_eq_true_2 (failed_msg _ = failed_msg _)) by done.
  apply orb_true_r.
Qed.

Lemma prints_ok_line pkg_name :
  prints_outcome pkg_name (Notice (ok_msg pkg_name)) = true.
Proof.
  unfold prints_outcome, is_outcome_line. simpl.
  by rewrite (bool_decide_eq_true_2 (ok_msg _ = ok_msg _)) by done.
Qed.

(** The run of the body of the [if]. *)
Lemma run_main_external pkg_name unpacked_name w :
  run (main_external pkg_name unpacked_name) w
  = let call_gap := GapExec (gap_commands unpacked_name pkg_name)
                            (gap_binary (host_this_dir w)) in
    match validator_answer pkg_name unpacked_name w with
    | (w', Ok code) =>
        Out [DirOfThisFile; call_gap;
             if bool_decide (code ≠ 0%Z) then Warning (failed_msg pkg_name)
             else Notice (ok_msg pkg_name)] w' (Ok tt)
    | (w', Err e) => Out [DirOfThisFile; call_gap] w' (Err e)
    end.
Proof.
  unfold main_external, validator_answer. simpl.
  destruct (host_gap_exec _ _ _) as [w' [code|e]]; simpl; [|done].
  by destruct (bool_decide (code ≠ 0%Z)).
Qed.


(** C2, as the code has it.  [main] prints an outcome line of the
    package only when the three-field validation has returned [True] and
    the validator has returned an exit code: then it prints exactly one,
    the failure line for a non-zero code and the success line for zero.
    When a field check fails, or an exception ends the run, it prints no
    outcome line.  When the field validation has returned [False],
    [main] returns without a further call: all it has printed since its
    first thirteen lines are the warnings of the failing checks, at least
    one, each ending in [, FAILED!]. *)
Theorem main_outcome_line (pkg_name : string) (w : W) :
  let fv := field_validation pkg_name w in
  let o := run (main pkg_name) w in
  outcome_lines pkg_name (trace o)
  = match result fv with
    | Ok (true, u) =>
        match (validator_answer pkg_name u (world fv)).2 with
        | Ok code => [if bool_decide (code ≠ 0%Z) then failed_msg pkg_name
                      else ok_msg pkg_name]
        | Err _ => []
        end
    | _ => []
    end
  ∧ ∀ u, result fv = Ok (false, u) →
      ∃ pkg_json packed_name,
        let setup := run (main_setup pkg_name) w in
        let checks := run (validate_package pkg_name u packed_name pkg_json)
                          (world setup) in
        result setup = Ok (pkg_json, packed_name, u)
        ∧ o = Out (trace setup ++ trace checks) (world checks) (Ok tt)
        ∧ console (trace o)
          = console (trace setup) ++ warnings (trace checks)
        ∧ warnings (trace checks) ≠ []
        ∧ Forall (λ m, ends_with m ", FAILED!") (warnings (trace checks)).
Proof.
  intros fv o. split.
  - assert (List.filter (prints_outcome pkg_name) (trace fv) = []) as Hfv.
    { apply field_validation_avoids;
        [apply setup_avoids_outcome|intros; apply validate_avoids_outcome]. }
    subst o. rewrite run_main. fold fv. unfold outcome_lines.
    rewrite trace_and_then, List.filter_app, Hfv, app_nil_l.
    destruct (result fv) as [[[] u]|e]; [|done..].
    rewrite run_main_external. simpl.
    destruct (validator_answer pkg_name u (world fv)) as [w' [code|e]];
      simpl; [|done].
    by destruct (bool_decide (code ≠ 0%Z));
      rewrite ?prints_failed_line, ?prints_ok_line.
  - intros u Hfv. subst o. rewrite run_main. fold fv.
    rewrite (and_then_ok _ _ _ Hfv). cbn [trace world result].
    rewrite app_nil_r. revert Hfv. subst fv. unfold field_validation.
    set (setup := run (main_setup pkg_name) w).
    destruct (result setup) as [[[pkg_json packed_name] u0]|e] eqn:Hs;
      [|by rewrite (and_then_err _ _ _ Hs)].
    rewrite (and_then_ok _ _ _ Hs).
    set (checks := run (validate_package pkg_name u0 packed_name pkg_json)
                       (world setup)).
    destruct (validate_package_prints pkg_name u0 packed_name pkg_json
                (world setup)) as (Hconsole & Hfailed & Hsome).
    fold checks in Hconsole, Hfailed, Hsome.
    destruct (result checks) as [passed|e] eqn:Hc;
      [rewrite (and_then_ok _ _ _ Hc)|by rewrite (and_then_err _ _ _ Hc)].
    cbn [trace world result]. rewrite app_nil_r. intros [= -> ->].
    exists pkg_json, packed_name. cbv zeta. fold checks.
    split_and!; [done|done| |by apply Hsome|done].
    unfold console. rewrite omap_app. fold (console (trace checks)).
    by rewrite Hconsole.
Qed.

Lemma join_archives x :
  ¬ starts_with x "/" → join "_archives" x = "_archives/" +:+ x.
Proof.
  intros Hx. unfold join.
  by rewrite (proj1 (not_true_iff_false _)) by (by rewrite startswith_spec).
Qed.

Lemma join_absolute_second a x : starts_with x "/" → join a x = x.
Proof.
  intros Hx. unfold join. by rewrite (proj2 (startswith_spec _ _) Hx).
Qed.

(** C7, as the code has it.  With a record that has both fields, [main]
    asks once for the metadata and then calls [download_archive] with
    the URL [ArchiveURL] followed by the first of the space-separated
    formats, with [tries=5], and with the target
    [os.path.join("_archives", s)], where [s] is the last [/]-segment of
    [ArchiveURL] followed by that format: the target is [_archives/]
    followed by [s] unless [s] begins with a slash, and then it is [s]
    itself, outside [_archives]. *)
Theorem main_acquisition (pkg_name : string) (w w1 : W) (pkg_json : record)
    (formats archive_url : string) :
  host_metadata w pkg_name = (w1, Ok pkg_json) →
  pkg_json !! "ArchiveFormats" = Some formats →
  pkg_json !! "ArchiveURL" = Some archive_url →
  ∃ fmt segment rest,
    getitem (split " " formats) 0 = Some fmt
    ∧ getitem (split "/" archive_url) (-1) = Some segment
    ∧ first_piece " " formats fmt
    ∧ last_piece "/" archive_url segment
    ∧ trace (run (main pkg_name) w)
      = Metadata pkg_name
        :: DownloadArchive pkg_name (archive_url +:+ fmt)
             (join "_archives" (segment +:+ fmt)) 5
        :: rest
    ∧ (¬ starts_with (segment +:+ fmt) "/" →
         join "_archives" (segment +:+ fmt)
         = "_archives/" +:+ segment +:+ fmt)
    ∧ (starts_with (segment +:+ fmt) "/" →
         join "_archives" (segment +:+ fmt) = segment +:+ fmt).
Proof.
  intros Hmeta Hf Hu.
  destruct (split_first " " formats) as (fmt & Hfmt & Hfirst).
  destruct (split_last "/" archive_url) as (segment & Hseg & Hlast).
  exists fmt, segment.
  assert (∃ rest, trace (run (main pkg_name) w)
      = Metadata pkg_name
        :: DownloadArchive pkg_name (archive_url +:+ fmt)
             (join "_archives" (segment +:+ fmt)) 5
        :: rest) as [rest Hrest].
  { unfold main, subscript, index. cbv zeta.
    rewrite run_bind, run_call. unfold and_then at 1. simpl.
    rewrite Hmeta. simpl. rewrite Hf. simpl. rewrite Hfmt. simpl.
    rewrite Hu. simpl. rewrite Hseg. simpl.
    destruct (host_download _ _ _ _ _) as [w2 [[]|e]]; simpl; eauto. }
  exists rest.
  split_and!; [done|done|done|done|done|apply join_archives
              |apply join_absolute_second].
Qed.

Lemma getitem_middle {A} (pre l : list A) (x : A) :
  getitem (pre ++ x :: l) (Z.of_nat (length pre)) = Some x.
Proof.
  unfold getitem. rewrite (proj2 (Z.leb_le _ _)) by lia.
  rewrite Nat2Z.id. by apply list_lookup_middle.
Qed.

Lemma run_for_each_index (pre l : list string) (w : W) :
  run (for_each (seq (length pre) (length l))
         (λ i, pkg_name <- index (pre ++ l) (Z.of_nat i) ;; main pkg_name)) w
  = run_packages l w.
Proof.
  revert pre w. induction l as [|x l IH]; intros pre w; [done|].
  change (run_packages (x :: l) w)
    with (and_then (run (main x) w) (λ _ w', run_packages l w')).
  change (seq (length pre) (length (x :: l)))
    with (length pre :: seq (S (length pre)) (length l)).
  change (for_each (?i :: ?r) ?body)
    with (bind (body i) (λ _, for_each r body)).
  rewrite run_bind. unfold index at 1. rewrite getitem_middle.
  change (bind (lift_option IndexError (Some x)) main) with (main x).
  apply and_then_ext. intros _ w'.
  specialize (IH (pre ++ [x]) w').
  rewrite length_app, Nat.add_1_r, <- app_assoc in IH. apply IH.
Qed.

Lemma main_avoids_second_metadata pkg_name w :
  processed (trace (run (main pkg_name) w)) = [pkg_name].
Proof.
  unfold main. cbv zeta. rewrite run_bind, trace_and_then, run_call.
  unfold processed. rewrite omap_app. simpl.
  destruct (host_metadata w pkg_name) as [w1 [pkg_json|e]]; simpl; [|done].
  f_equal. apply (filter_nil_omap is_metadata); [by intros []|].
  apply avoids_run.
  unfold unpack_archive, unpacked_archive_name, validate_package,
    os_path_join, subscript, index. cbv beta zeta.
  avoiding; reflexivity.
Qed.

Lemma run_packages_processed (pkgs : list string) (w : W) :
  processed (trace (run_packages pkgs w)) `prefix_of` pkgs
  ∧ (result (run_packages pkgs w) = Ok tt →
       processed (trace (run_packages pkgs w)) = pkgs).
Proof.
  revert w. induction pkgs as [|p pkgs IH]; intros w; [done|].
  change (run_packages (p :: pkgs) w)
    with (and_then (run (main p) w) (λ _ w', run_packages pkgs w')).
  rewrite trace_and_then, result_and_then. unfold processed.
  rewrite omap_app. fold (processed (trace (run (main p) w))).
  rewrite main_avoids_second_metadata.
  destruct (result (run (main p) w)) as [[]|e].
  - destruct (IH (world (run (main p) w))) as [Hpre Heq].
    split; [by apply prefix_cons|]. intros Hok. simpl. f_equal. by apply Heq.
  - split; [|done]. simpl. apply prefix_cons, prefix_nil.
Qed.

(** C8, as the code has it.  The driver runs [main] on the arguments
    after the program name, in order, each run starting in the world
    the previous one left; the packages it starts are an initial part of
    the arguments, and all of them when the driver returns.  A package
    whose field validation returns [False], or whose validator returns
    an exit code, ends [main] normally, so the next package is run.  An
    exception raised while a package is processed is not caught: it ends
    the driver, and the later packages are not run. *)
Theorem script_runs_packages_in_order (argv : list string) (w : W) :
  let o := run (script argv) w in
  o = run_packages (tail argv) w
  ∧ processed (trace o) `prefix_of` tail argv
  ∧ (result o = Ok tt → processed (trace o) = tail argv)
  ∧ (∀ pkg_name w0 u,
       result (field_validation pkg_name w0) = Ok (false, u) →
       result (run (main pkg_name) w0) = Ok tt)
  ∧ (∀ pkg_name w0 u w' code,
       result (field_validation pkg_name w0) = Ok (true, u) →
       validator_answer pkg_name u (world (field_validation pkg_name w0))
       = (w', Ok code) →
       result (run (main pkg_name) w0) = Ok tt)
  ∧ (∀ pkg_name rest w0 e,
       result (run (main pkg_name) w0) = Err e →
       run_packages (pkg_name :: rest) w0
       = Out (trace (run (main pkg_name) w0)) (world (run (main pkg_name) w0))
             (Err e)).
Proof.
  intros o.
  assert (o = run_packages (tail argv) w) as ->.
  { subst o. unfold script, range. destruct argv as [|prog pkgs]; [done|].
    simpl length. rewrite Nat.sub_succ, Nat.sub_0_r.
    apply (run_for_each_index [prog] pkgs w). }
  destruct (run_packages_processed (tail argv) w) as [Hpre Heq].
  split_and!; [done|done|done|..].
  - intros pkg_name w0 u Hfv. by rewrite run_main, result_and_then, Hfv.
  - intros pkg_name w0 u w' code Hfv Hans.
    rewrite run_main, result_and_then, Hfv, run_main_external. simpl.
    by rewrite Hans.
  - intros pkg_name rest w0 e He.
    change (run_packages (pkg_name :: rest) w0)
      with (and_then (run (main pkg_name) w0) (λ _ w', run_packages rest w')).
    unfold and_then. by rewrite He.
Qed.

End Main.

(** ** The docstring's example, and other concrete runs *)

Section Examples.

(** All three checks fail on an unpacked [walrus] with stale hashes and
    no [meta.json.old]: the three warnings are printed, in order. *)
Lemma validate_package_checks_accumulate_witness :
  warnings (trace (run (validate_package "walrus" (Some Toy.walrus_dir)
                          Toy.walrus_tgz Toy.stale_record) Toy.unpacked))
  = ["walrus: walrus/meta.yml:PackageInfoSHA256 is not the SHA256 of _unpacked_archives/walrus-0.9991/PackageInfo.g, FAILED!";
     "walrus: walrus/meta.yml:ArchiveSHA256 is not the SHA256 of _archives/walrus-0.9991.tar.gz, FAILED!";
     "walrus: the file walrus/meta.yml.old is missing, FAILED!"].
Proof.
  destruct (validate_package_checks_accumulate "walrus" Toy.walrus_dir Toy.walrus_tgz
              Toy.stale_record Toy.unpacked "ffff" "eeee" "9c2d" "3a77")
    as [Ht _]; [vm_compute; reflexivity..|].
  rewrite Ht. reflexivity.
Defined.



(** An archive released as [.tar.xz] is skipped: no extraction, the
    skip notice, a normal return. *)
Lemma unpack_archive_dispatch_witness :
  let o := run (unpack_archive Toy.staging_dir "example"
                  "_archives/example-1.0.tar.xz") Toy.with_xz in
  extractions (trace o) = []
  ∧ result o = Ok tt
  ∧ last (trace o)
    = Some (Notice "example: bad archive extension xz, skipping _archives/example-1.0.tar.xz").
Proof.
  destruct (unpack_archive_dispatch Toy.staging_dir "example"
              "_archives/example-1.0.tar.xz" Toy.with_xz)
    as (ext & Hext & _ & Hskip & _).
  injection Hext as <-.
  destruct (Hskip (not_ends_with "xz" "gz" eq_refl)
              (not_ends_with "xz" "bz2" eq_refl)
              (not_ends_with "xz" "zip" eq_refl)) as [Hnone Hready].
  destruct Hready as [Hres Hlast]; [right; eexists; reflexivity|].
  exact (conj Hnone (conj Hres Hlast)).
Defined.

(** The same call leaves a world that differs from the initial one by
    the staging directory only. *)
Lemma unpack_archive_staging_first_witness :
  let o := run (unpack_archive Toy.staging_dir "example"
                  "_archives/example-1.0.tar.xz") Toy.with_xz in
  trace o
  = [OsPathExists Toy.staging_dir; OsMkdir Toy.staging_dir;
     Notice "example: unpacking _archives/example-1.0.tar.xz into _unpacked_archives ...";
     Notice "example: bad archive extension xz, skipping _archives/example-1.0.tar.xz"]
  ∧ world o = (Toy.mkdir Toy.with_xz Toy.staging_dir).1
  ∧ result o = Ok tt.
Proof.
  destruct (unpack_archive_staging_first Toy.staging_dir "example"
              "_archives/example-1.0.tar.xz" Toy.with_xz)
    as (_ & _ & ext & Hext & _ & Hskip).
  injection Hext as <-.
  apply (Hskip (not_ends_with "xz" "gz" eq_refl)
           (not_ends_with "xz" "bz2" eq_refl)
           (not_ends_with "xz" "zip" eq_refl)).
  right; eexists; reflexivity.
Defined.

(** No entry for [walrus] among the staged directories: [None], and
    then [TypeError]. *)
Lemma validate_package_raises_on_no_match_witness :
  result (run (unpacked_archive_name Toy.staging_dir "walrus")
              (Toy.staging ["digraphs-1.5.0"])) = Ok None
  ∧ run (unpacked_name <- unpacked_archive_name Toy.staging_dir "walrus" ;;
         validate_package "walrus" unpacked_name Toy.walrus_tgz Toy.stale_record)
        (Toy.staging ["digraphs-1.5.0"])
    = Out [OsListdir Toy.staging_dir; Warning undetermined_msg]
          (Toy.staging ["digraphs-1.5.0"]) (Err TypeError).
Proof.
  destruct (validate_package_raises_on_no_match Toy.staging_dir "walrus" Toy.walrus_tgz
              Toy.stale_record (Toy.staging ["digraphs-1.5.0"])
              ["digraphs-1.5.0"])
    as (Hnone & _ & Hboth); [vm_compute; reflexivity| |].
  { constructor; [|constructor].
    exact (not_lower_prefix "walrus" "digraphs-1.5.0" eq_refl). }
  exact (conj Hnone Hboth).
Defined.

(** [digraphs] in the docstring's directory: the formats are
    [.tar.gz .tar.bz2], the first one is used. *)
Lemma main_acquisition_witness :
  ∃ rest, trace (run (main "digraphs") Toy.distro)
    = Metadata "digraphs"
      :: DownloadArchive "digraphs"
           "https://github.com/digraphs/Digraphs/releases/download/v1.5.0/digraphs-1.5.0.tar.gz"
           "_archives/digraphs-1.5.0.tar.gz" 5
      :: rest.
Proof.
  destruct (main_acquisition "digraphs" Toy.distro Toy.distro
              (Toy.meta "https://github.com/digraphs/Digraphs/releases/download/v1.5.0/digraphs-1.5.0"
                        ".tar.gz .tar.bz2" "0f1e" "d1a0")
              ".tar.gz .tar.bz2"
              "https://github.com/digraphs/Digraphs/releases/download/v1.5.0/digraphs-1.5.0"
           )
    as (fmt & segment & rest & Hfmt & Hseg & _ & _ & Htrace & _);
    [vm_compute; reflexivity..|].
  injection Hfmt as <-. injection Hseg as <-.
  exact (ex_intro _ rest Htrace).
Defined.

(** C7 as stated fails for a record whose format begins with a slash
    after a URL that ends in one: the last segment is empty, and the
    download target is [/tmp/x.zip], not a path under [_archives]. *)
Lemma main_stages_outside_archives :
  Toy.records Toy.slashes
  = [("example",
      Toy.meta "https://example.org/releases/" "/tmp/x.zip" "aaaa" "4b4b")]
  ∧ run (main "example") Toy.slashes
    = Out [Metadata "example";
           DownloadArchive "example" "https://example.org/releases//tmp/x.zip"
             "/tmp/x.zip" 5]
          Toy.slashes (Err (SystemExit 1)).
Proof. split; vm_compute; reflexivity. Qed.


(** C2 as stated fails on the docstring's [walrus]: the field validation
    returns [False] because [meta.json.old] is missing, and the console
    shows the unpacking notice and the warning of that check, with no
    [walrus: validation FAILED!] line. *)
Lemma main_prints_no_outcome_line_on_field_failure :
  result (field_validation "walrus" Toy.distro) = Ok (false, Some Toy.walrus_dir)
  ∧ console (trace (run (main "walrus") Toy.distro))
    = ["walrus: unpacking _archives/walrus-0.9991.tar.gz into _unpacked_archives ...";
       "walrus: the file walrus/meta.yml.old is missing, FAILED!"]
  ∧ result (run (main "walrus") Toy.distro) = Ok tt.
Proof. vm_compute. done. Qed.

(** The docstring's [walrus]: after the field validation has returned
    [False], what [main] has printed since its first lines are warnings
    that end in [, FAILED!]. *)
Lemma main_outcome_line_witness :
  ∃ pkg_json packed_name,
    let setup := run (main_setup "walrus") Toy.distro in
    let checks := run (validate_package "walrus" (Some Toy.walrus_dir)
                         packed_name pkg_json) (world setup) in
    result setup = Ok (pkg_json, packed_name, Some Toy.walrus_dir)
    ∧ run (main "walrus") Toy.distro
      = Out (trace setup ++ trace checks) (world checks) (Ok tt)
    ∧ console (trace (run (main "walrus") Toy.distro))
      = console (trace setup) ++ warnings (trace checks)
    ∧ warnings (trace checks) ≠ []
    ∧ Forall (λ m, ends_with m ", FAILED!") (warnings (trace checks)).
Proof.
  apply (proj2 (main_outcome_line "walrus" Toy.distro) (Some Toy.walrus_dir)).
  vm_compute. reflexivity.
Defined.

(** The docstring's order: [digraphs], then [walrus], both started. *)
Lemma script_runs_packages_in_order_witness :
  processed (trace (run (script ["validate_package.py"; "digraphs"; "walrus"])
                        Toy.distro))
  = ["digraphs"; "walrus"].
Proof.
  destruct (script_runs_packages_in_order
              ["validate_package.py"; "digraphs"; "walrus"] Toy.distro)
    as (_ & _ & Hall & _).
  apply Hall. vm_compute. reflexivity.
Defined.

(** C8 as stated fails when a package raises: [example] is released as
    [.tar.xz] only, its extraction is skipped, no directory is resolved,
    [validate_package] raises [TypeError], and [digraphs], next on the
    command line, is never started. *)
Lemma script_stops_at_first_exception :
  run (script ["validate_package.py"; "example"; "digraphs"]) Toy.with_xz
  = Out [Metadata "example";
         DownloadArchive "example"
           "https://example.org/releases/example-1.0.tar.xz"
           "_archives/example-1.0.tar.xz" 5;
         OsPathExists Toy.staging_dir; OsMkdir Toy.staging_dir;
         Notice "example: unpacking _archives/example-1.0.tar.xz into _unpacked_archives ...";
         Notice "example: bad archive extension xz, skipping _archives/example-1.0.tar.xz";
         OsListdir Toy.staging_dir;
         Warning "{}: couldn't determine the unpacked archive directory!"]
        (Toy.mkdir Toy.with_xz Toy.staging_dir).1
        (Err TypeError).
Proof. vm_compute. reflexivity. Qed.

End Examples.

(** ** Further properties of field validation *)

Section FieldValidationMore.
Context {W : Type} `{!Host W}.

(** A program all of whose calls read or print leaves the world as it
    found it. *)
Lemma reads_only_world {A} (p : Prog A) (w : W) :
  avoids (λ c, negb (reads_only c)) p → world (run p w) = w.
Proof.
  revert w. induction p as [a|e|c k IH]; intros w Hp; simpl in *; [done..|].
  destruct Hp as [Hc Hk]. apply negb_false_iff in Hc.
  destruct c; try discriminate Hc; simpl;
    try (match goal with |- context [match ?r with Ok _ => _ | Err _ => _ end] =>
           destruct r end); simpl; auto.
Qed.

Lemma filter_nil_Forall (f : Cmd → bool) (t : list Cmd) :
  List.filter (λ c, negb (f c)) t = [] → Forall (λ c, f c = true) t.
Proof.
  induction t as [|c t IH]; simpl; [constructor|].
  destruct (f c) eqn:E; simpl; [|done]. intros Ht. constructor; auto.
Qed.

Ltac validate_cases :=
  rewrite run_validate_package; cbv zeta;
  repeat match goal with
    | |- context [match ?x with Some _ => _ | None => _ end] => destruct x eqn:?
    | |- context [match ?x with Ok _ => _ | Err _ => _ end] => destruct x eqn:?
    | |- context [bool_decide ?P] => destruct (bool_decide P) eqn:?
    | |- context [host_exists ?w ?p] => destruct (host_exists w p) eqn:?
    end; cbv zeta; simpl.

(** X1. [validate_package] only looks: whatever it is given and whatever
    happens, it leaves the world as it found it, and every call it makes
    is a hash query, an existence test or a warning. *)
Theorem validate_package_reads_only (pkg_name : string)
    (unpacked_name : option string) (packed_name : string)
    (pkg_json : record) (w : W) :
  let o := run (validate_package pkg_name unpacked_name packed_name pkg_json) w in
  world o = w ∧ Forall (λ c, is_check_call c = true) (trace o).
Proof.
  intros o. subst o. validate_cases; (split; [done|repeat constructor]).
Qed.

(** X2. When [validate_package] returns, it returns [False] exactly when
    it has printed a warning, and it prints at most three. *)
Theorem validate_package_false_iff_warned (pkg_name : string)
    (unpacked_name : option string) (packed_name : string)
    (pkg_json : record) (w : W) (passed : bool) :
  let o := run (validate_package pkg_name unpacked_name packed_name pkg_json) w in
  result o = Ok passed →
  (passed = false ↔ warnings (trace o) ≠ [])
  ∧ length (warnings (trace o)) ≤ 3.
Proof.
  intros o. subst o. validate_cases; intros [= <-];
    (split; [split; intros Hx; first [done|by destruct Hx]|lia]).
Qed.


(** X4. A hash that cannot be computed ends [validate_package] with the
    exception of [sha256]: for the manifest, nothing else has been called
    and the archive is never hashed; for the archive, the manifest check
    has been made and [meta.json.old] is never looked for.  The checks do
    not accumulate past an exception. *)
Theorem validate_package_hash_error (pkg_name unpacked packed_name : string)
    (pkg_json : record) (w : W) (r1 : string) (e : exn) :
  let o := run (validate_package pkg_name (Some unpacked) packed_name pkg_json) w in
  let info := join unpacked "PackageInfo.g" in
  pkg_json !! "PackageInfoSHA256" = Some r1 →
  (host_sha256 w info = Err e → o = Out [Sha256 info] w (Err e))
  ∧ (∀ h1 r2, host_sha256 w info = Ok h1 →
       pkg_json !! "ArchiveSHA256" = Some r2 →
       host_sha256 w packed_name = Err e →
       o = Out (Sha256 info :: warn_if (bool_decide (r1 ≠ h1))
                                 (pkg_info_sha_msg pkg_name info)
                ++ [Sha256 packed_name])
               w (Err e)).
Proof.
  intros o info Hr1. subst o info. rewrite run_validate_package, Hr1.
  cbv zeta. split.
  - by intros ->.
  - intros h1 r2 -> -> ->. done.
Qed.

(** X5. [validate_package] returns a boolean, rather than raising,
    exactly when the directory is resolved, both hash fields are recorded
    and both hashes can be computed; what the hashes are, and whether
    [meta.json.old] exists, decides the boolean and never an exception. *)
Theorem validate_package_returns_iff (pkg_name : string)
    (unpacked_name : option string) (packed_name : string)
    (pkg_json : record) (w : W) :
  let o := run (validate_package pkg_name unpacked_name packed_name pkg_json) w in
  (∃ passed, result o = Ok passed)
  ↔ ∃ unpacked r1 r2 h1 h2,
      unpacked_name = Some unpacked
      ∧ pkg_json !! "PackageInfoSHA256" = Some r1
      ∧ pkg_json !! "ArchiveSHA256" = Some r2
      ∧ host_sha256 w (join unpacked "PackageInfo.g") = Ok h1
      ∧ host_sha256 w packed_name = Ok h2.
Proof.
  intros o. subst o. rewrite run_validate_package. split.
  - intros [passed Hres]. destruct unpacked_name as [u|]; [|done].
    cbv zeta in Hres.
    destruct (pkg_json !! "PackageInfoSHA256") as [r1|] eqn:E1; [|done].
    destruct (host_sha256 w (join u "PackageInfo.g")) as [h1|] eqn:E2; [|done].
    destruct (pkg_json !! "ArchiveSHA256") as [r2|] eqn:E3; [|done].
    destruct (host_sha256 w packed_name) as [h2|] eqn:E4; [|done].
    by exists u, r1, r2, h1, h2.
  - intros (u & r1 & r2 & h1 & h2 & -> & E1 & E3 & E2 & E4). cbv zeta.
    rewrite E1, E2, E3, E4. by eexists.
Qed.

Lemma yml_is_not_json pkg_name :
  pkg_name +:+ "/meta.yml.old" ≠ join pkg_name "meta.json.old".
Proof.
  unfold join. change (startswith "meta.json.old" "/") with false. cbv iota.
  destruct (bool_decide (pkg_name = "") || endswith pkg_name "/"); intros E;
    apply (inj (String.app _)) in E; discriminate E.
Qed.

(** X6. When [meta.json.old] is missing, the path tested is the package
    directory joined with [meta.json.old], while the warning, the last
    call made, names the package directory followed by [/meta.yml.old]:
    the file named in the warning is never the file that was looked for. *)
Theorem missing_snapshot_warning_names_yml (pkg_name : string)
    (unpacked_name : option string) (packed_name : string)
    (pkg_json : record) (w : W) (passed : bool) :
  let o := run (validate_package pkg_name unpacked_name packed_name pkg_json) w in
  result o = Ok passed →
  host_exists w (join pkg_name "meta.json.old") = false →
  passed = false
  ∧ In (OsPathExists (join pkg_name "meta.json.old")) (trace o)
  ∧ last (trace o)
    = Some (Warning (pkg_name +:+ ": the file " +:+ pkg_name
                     +:+ "/meta.yml.old is missing, FAILED!"))
  ∧ pkg_name +:+ "/meta.yml.old" ≠ join pkg_name "meta.json.old".
Proof.
  intros o Hres Hold. subst o. revert Hres. rewrite run_validate_package.
  destruct unpacked_name as [u|]; [|done]. cbv zeta.
  destruct (pkg_json !! "PackageInfoSHA256") as [r1|]; [|done].
  destruct (host_sha256 w (join u "PackageInfo.g")) as [h1|]; [|done].
  destruct (pkg_json !! "ArchiveSHA256") as [r2|]; [|done].
  destruct (host_sha256 w packed_name) as [h2|]; [|done].
  rewrite Hold. simpl. intros [= <-].
  split_and!.
  - by rewrite andb_false_r.
  - right. apply in_or_app. right. right. apply in_or_app. right. by left.
  - by destruct (bool_decide (r1 ≠ h1)), (bool_decide (r2 ≠ h2)).
  - apply yml_is_not_json.
Qed.

End FieldValidationMore.

(** ** Further properties of extraction and directory resolution *)

Section UnpackingMore.
Context {W : Type} `{!Host W} `{!StrLower}.

Lemma split_without_separator sep s : ¬ occurs sep s → split sep s = [s].
Proof.
  induction s as [|c s IH]; intros Hs; [done|]. simpl.
  destruct (decide (c = sep)) as [->|Hc].
  - destruct Hs. by exists "", s.
  - rewrite IH; [done|]. intros (p & r & ->). apply Hs.
    by exists (String c p), r.
Qed.

Lemma not_occurs_of_split sep s : split sep s = [s] → ¬ occurs sep s.
Proof.
  intros E. pose proof (split_pieces_free sep s) as Hf. rewrite E in Hf.
  by inversion Hf.
Qed.

(** X7. [unpack_archive] calls [os.mkdir] exactly when the staging
    directory is absent, and then once, whatever the extension and
    whatever happens afterwards.  When [os.mkdir] raises, that exception
    ends [unpack_archive]: nothing is printed and nothing extracted. *)
Theorem unpack_archive_mkdir_iff_absent (unpack_dir pkg_name archive_fname : string)
    (w : W) :
  let o := run (unpack_archive unpack_dir pkg_name archive_fname) w in
  List.filter is_mkdir (trace o)
  = (if host_exists w unpack_dir then [] else [OsMkdir unpack_dir])
  ∧ (∀ w1 e, host_exists w unpack_dir = false →
       host_mkdir w unpack_dir = (w1, Err e) →
       o = Out [OsPathExists unpack_dir; OsMkdir unpack_dir] w1 (Err e)).
Proof.
  intros o. subst o. split.
  - destruct (split_last "." archive_fname) as (ext & Hext & _).
    destruct (staging_cases w unpack_dir) as [Hready|(w1 & e & He & Hmk)].
    + rewrite (run_unpack_archive_ready _ _ _ _ _ Hext Hready). cbv zeta.
      unfold staging_calls.
      by destruct (endswith ext "gz" || endswith ext "bz2"),
        (endswith ext "zip"), (host_exists w unpack_dir).
    + rewrite (run_unpack_archive_mkdir_fails _ _ _ _ _ _ He Hmk).
      by rewrite He.
  - intros w1 e He Hmk. by apply run_unpack_archive_mkdir_fails.
Qed.

(** X8. The extension is taken from the whole path, and a path without
    any dot is its own extension: such an archive is extracted with
    [tarfile] when the path ends in [gz] or [bz2], with [zipfile] when it
    ends in [zip], and is skipped otherwise, the skip notice giving the
    whole path as the extension. *)
Theorem unpack_archive_without_dot (unpack_dir pkg_name archive_fname : string)
    (w : W) :
  ¬ occurs "." archive_fname →
  staging_ready w unpack_dir →
  let o := run (unpack_archive unpack_dir pkg_name archive_fname) w in
  (ends_with archive_fname "gz" ∨ ends_with archive_fname "bz2" →
     extractions (trace o) = [TarExtractAll archive_fname unpack_dir])
  ∧ (ends_with archive_fname "zip" →
       extractions (trace o) = [ZipExtractAll archive_fname unpack_dir])
  ∧ (¬ ends_with archive_fname "gz" → ¬ ends_with archive_fname "bz2" →
     ¬ ends_with archive_fname "zip" →
       result o = Ok tt
       ∧ last (trace o)
         = Some (Notice (bad_extension_msg pkg_name archive_fname archive_fname))).
Proof.
  intros Hdot Hready o.
  assert (getitem (split "." archive_fname) (-1) = Some archive_fname) as Hext
    by (by rewrite (split_without_separator _ _ Hdot)).
  subst o. rewrite (run_unpack_archive_ready _ _ _ _ _ Hext Hready). cbv zeta.
  destruct (suffix_tests archive_fname) as (Htar & Hzip & Hexcl).
  assert (∀ c, extractions
                 ((staging_calls w unpack_dir
                   ++ [Notice (unpacking_msg pkg_name archive_fname unpack_dir)])
                  ++ [c])
               = extractions [c]) as Hfilter.
  { intros c. unfold extractions. rewrite !List.filter_app.
    fold (extractions (staging_calls w unpack_dir)).
    by rewrite staging_calls_no_extraction. }
  split_and!.
  - intros Ht. apply Htar in Ht. rewrite Ht. simpl. by rewrite Hfilter.
  - intros Hz. rewrite (Hexcl Hz). apply Hzip in Hz. rewrite Hz. simpl.
    by rewrite Hfilter.
  - intros Hg Hb Hz.
    rewrite (proj1 (not_true_iff_false _)) by (rewrite Htar; tauto).
    rewrite (proj1 (not_true_iff_false _)) by (rewrite Hzip; tauto).
    simpl. split; [done|]. by rewrite last_snoc.
Qed.

(** X9. Directory resolution looks at the leading characters only.  When
    the first entry of the listing begins with as many characters as the
    package name has and [str.lower] maps them to the package name, that
    entry is returned, whatever follows in its name and whatever the
    later entries are: an entry of another package whose name extends
    this one is not told apart. *)
Theorem unpacked_archive_name_takes_first_prefix (unpack_dir pkg_name : string)
    (head_of_entry rest_of_entry : string) (others : list string) (w : W) :
  lower head_of_entry = pkg_name →
  str_len head_of_entry = str_len pkg_name →
  starts_char rest_of_entry →
  host_listdir w unpack_dir = Ok ((head_of_entry +:+ rest_of_entry) :: others) →
  run (unpacked_archive_name unpack_dir pkg_name) w
  = Out [OsListdir unpack_dir] w
        (Ok (Some (join unpack_dir (head_of_entry +:+ rest_of_entry)))).
Proof.
  intros Hlow Hlen Hrest Hl. unfold unpacked_archive_name. simpl.
  rewrite Hl. simpl.
  assert (entry_matches pkg_name (head_of_entry +:+ rest_of_entry) = true) as ->.
  { apply entry_matches_spec. by exists head_of_entry, rest_of_entry. }
  done.
Qed.

End UnpackingMore.

(** ** Further properties of the whole script *)

Section MainMore.
Context {W : Type} `{!Host W} `{!StrLower}.

Lemma getitem_first_format formats :
  getitem (split " " formats) 0 = Some (first_format formats).
Proof.
  unfold first_format. by destruct (split_first " " formats) as (x & -> & _).
Qed.

Lemma getitem_last_segment archive_url :
  getitem (split "/" archive_url) (-1) = Some (last_segment archive_url).
Proof.
  unfold last_segment. by destruct (split_last "/" archive_url) as (x & -> & _).
Qed.

Lemma run_call_bind {A} (c : Cmd) (k : Ans c → Prog A) (w : W) :
  run (bind (call c) k) w
  = match handle c w with
    | (w', Ok x) => after c (run (k x) w')
    | (w', Err e) => Out [c] w' (Err e)
    end.
Proof. reflexivity. Qed.

(** The run of lines 115 to 127 of [main], case by case. *)
Lemma run_main_setup pkg_name w :
  run (main_setup pkg_name) w
  = match host_metadata w pkg_name with
    | (w1, Err e) => Out [Metadata pkg_name] w1 (Err e)
    | (w1, Ok pkg_json) =>
        match pkg_json !! "ArchiveFormats" with
        | None => Out [Metadata pkg_name] w1 (Err (KeyError "ArchiveFormats"))
        | Some formats =>
            match pkg_json !! "ArchiveURL" with
            | None => Out [Metadata pkg_name] w1 (Err (KeyError "ArchiveURL"))
            | Some archive_url =>
                let fmt := first_format formats in
                let url := archive_url +:+ fmt in
                let packed_name :=
                  join "_archives" (last_segment archive_url +:+ fmt) in
                let download := DownloadArchive pkg_name url packed_name 5 in
                match host_download w1 pkg_name url packed_name 5 with
                | (w2, Err e) => Out [Metadata pkg_name; download] w2 (Err e)
                | (w2, Ok _) =>
                    let o :=
                      and_then
                        (run (unpack_archive "_unpacked_archives" pkg_name
                                packed_name) w2)
                        (λ _ w3,
                           and_then
                             (run (unpacked_archive_name "_unpacked_archives"
                                     pkg_name) w3)
                             (λ unpacked_name w4,
                                Out [] w4
                                    (Ok (pkg_json, packed_name, unpacked_name)))) in
                    Out (Metadata pkg_name :: download :: trace o)
                        (world o) (result o)
                end
            end
        end
    end.
Proof.
  unfold main_setup, subscript, index. cbv zeta.
  rewrite run_call_bind. cbn [handle].
  destruct (host_metadata w pkg_name) as [w1 [pkg_json|e]]; [|done].
  destruct (pkg_json !! "ArchiveFormats") as [formats|];
    cbn [run bind lift_option]; [|done].
  rewrite getitem_first_format. cbn [run bind lift_option].
  destruct (pkg_json !! "ArchiveURL") as [archive_url|];
    cbn [run bind lift_option]; [|done].
  rewrite getitem_last_segment. cbn [run bind lift_option].
  rewrite run_call_bind. cbn [handle].
  destruct (host_download _ _ _ _ _) as [w2 [[]|e]]; [|done].
  unfold after. cbn [trace world result]. rewrite run_bind.
  rewrite (and_then_ext _ _
    (λ _ w3,
       and_then (run (unpacked_archive_name "_unpacked_archives" pkg_name) w3)
         (λ unpacked_name w4,
            Out [] w4
              (Ok (pkg_json,
                   join "_archives"
                     (last_segment archive_url +:+ first_format formats),
                   unpacked_name))))); [done|].
  intros _ w3. by rewrite run_bind.
Qed.

Ltac avoiding :=
  repeat match goal with
    | |- avoids _ (bind _ _) => apply avoids_bind; [|intros ?]
    | |- avoids _ (call _) => split; [|done]
    | |- avoids _ (Do _ _) => split; [|intros ?]
    | |- True => exact I
    | |- avoids _ (Ret _) => exact I
    | |- avoids _ (Raise _) => exact I
    | |- avoids _ (lift_option _ ?o) => destruct o; simpl
    | |- avoids _ (if ?b then _ else _) => destruct b
    | |- avoids _ (match ?o with _ => _ end) => destruct o
    end.

Lemma unpack_archive_avoids f unpack_dir pkg_name archive_fname :
  (∀ c, f c = true → is_hash c || is_download c || is_gap_exec c = true) →
  avoids f (unpack_archive unpack_dir pkg_name archive_fname).
Proof.
  intros Hf. unfold unpack_archive, index. avoiding;
    apply not_true_is_false; intros Hc; by apply Hf in Hc.
Qed.

Lemma unpacked_archive_name_avoids f unpack_dir pkg_name :
  (∀ c, f c = true → is_hash c || is_download c || is_gap_exec c = true) →
  avoids f (unpacked_archive_name unpack_dir pkg_name).
Proof.
  intros Hf. unfold unpacked_archive_name. avoiding;
    apply not_true_is_false; intros Hc; by apply Hf in Hc.
Qed.

(** When the first thirteen lines raise, [main] raises the same. *)
Lemma run_main_setup_error pkg_name w e :
  result (run (main_setup pkg_name) w) = Err e →
  run (main pkg_name) w
  = Out (trace (run (main_setup pkg_name) w))
        (world (run (main_setup pkg_name) w)) (Err e).
Proof.
  intros He. rewrite run_main. unfold field_validation, and_then.
  by rewrite He.
Qed.

(** X10. A record without [ArchiveFormats], or with it but without
    [ArchiveURL], makes [main] raise [KeyError] right after the metadata
    call: nothing is downloaded, and the world is the one [metadata]
    left. *)
Theorem main_missing_location_field (pkg_name : string) (w w1 : W)
    (pkg_json : record) :
  host_metadata w pkg_name = (w1, Ok pkg_json) →
  (pkg_json !! "ArchiveFormats" = None →
     run (main pkg_name) w
     = Out [Metadata pkg_name] w1 (Err (KeyError "ArchiveFormats")))
  ∧ (is_Some (pkg_json !! "ArchiveFormats") →
     pkg_json !! "ArchiveURL" = None →
     run (main pkg_name) w
     = Out [Metadata pkg_name] w1 (Err (KeyError "ArchiveURL"))).
Proof.
  intros Hmeta. split.
  - intros Hf.
    assert (run (main_setup pkg_name) w
            = Out [Metadata pkg_name] w1 (Err (KeyError "ArchiveFormats"))) as E
      by (by rewrite run_main_setup, Hmeta, Hf).
    rewrite (run_main_setup_error _ _ (KeyError "ArchiveFormats"));
      by rewrite E.
  - intros [formats Hf] Hu.
    assert (run (main_setup pkg_name) w
            = Out [Metadata pkg_name] w1 (Err (KeyError "ArchiveURL"))) as E
      by (by rewrite run_main_setup, Hmeta, Hf, Hu).
    rewrite (run_main_setup_error _ _ (KeyError "ArchiveURL")); by rewrite E.
Qed.

(** X11. When [download_archive] raises, [main] raises the same
    exception, in the world the download left; the metadata call and the
    download are the only calls made: nothing is unpacked, hashed or
    validated. *)
Theorem main_download_error (pkg_name : string) (w w1 w2 : W)
    (pkg_json : record) (formats archive_url : string) (e : exn) :
  let fmt := first_format formats in
  let url := archive_url +:+ fmt in
  let packed_name := join "_archives" (last_segment archive_url +:+ fmt) in
  host_metadata w pkg_name = (w1, Ok pkg_json) →
  pkg_json !! "ArchiveFormats" = Some formats →
  pkg_json !! "ArchiveURL" = Some archive_url →
  host_download w1 pkg_name url packed_name 5 = (w2, Err e) →
  run (main pkg_name) w
  = Out [Metadata pkg_name; DownloadArchive pkg_name url packed_name 5]
        w2 (Err e).
Proof.
  intros fmt url packed_name Hmeta Hf Hu Hd.
  assert (run (main_setup pkg_name) w
          = Out [Metadata pkg_name; DownloadArchive pkg_name url packed_name 5]
                w2 (Err e)) as E.
  { rewrite run_main_setup, Hmeta, Hf, Hu. cbv zeta.
    fold fmt. fold url. fold packed_name. by rewrite Hd. }
  rewrite (run_main_setup_error _ _ e); by rewrite E.
Qed.

Lemma main_setup_avoids f pkg_name w :
  (∀ c, f c = true → is_hash c || is_gap_exec c = true) →
  List.filter f (trace (run (main_setup pkg_name) w)) = [].
Proof.
  intros Hf.
  assert (∀ c, f c = true → is_hash c || is_download c || is_gap_exec c = true)
    as Hf'.
  { intros c Hc. apply Hf in Hc. destruct (is_hash c); [done|].
    simpl in *. rewrite Hc. apply orb_true_r. }
  assert (∀ c, is_hash c || is_gap_exec c = false → f c = false) as Hno.
  { intros c Hc. apply not_true_is_false. intros Hc'. apply Hf in Hc'.
    congruence. }
  rewrite run_main_setup.
  destruct (host_metadata w pkg_name) as [w1 [pkg_json|e]];
    cbn [trace List.filter]; [|by rewrite Hno].
  destruct (pkg_json !! "ArchiveFormats") as [formats|];
    cbn [trace List.filter]; [|by rewrite Hno].
  destruct (pkg_json !! "ArchiveURL") as [archive_url|];
    cbn [trace List.filter]; [|by rewrite Hno].
  cbv zeta.
  destruct (host_download _ _ _ _ _) as [w2 [[]|e]];
    cbn [trace List.filter]; rewrite !Hno by done; [|done].
  rewrite trace_and_then, List.filter_app.
  rewrite (avoids_run _ _ _ (unpack_archive_avoids f _ _ _ Hf')), app_nil_l.
  destruct (result (run (unpack_archive _ _ _) w2)); [|done].
  rewrite trace_and_then, List.filter_app.
  rewrite (avoids_run _ _ _ (unpacked_archive_name_avoids f _ _ Hf')).
  by destruct (result (run (unpacked_archive_name _ _) _)).
Qed.

(** X12. When no unpacked directory has been resolved, [main] ends with
    [TypeError] as soon as [validate_package] is entered: its calls are
    those of its first thirteen lines, no hash has been computed and the
    validator has not been run. *)
Theorem main_unresolved_raises (pkg_name : string) (w : W)
    (pkg_json : record) (packed_name : string) :
  let setup := run (main_setup pkg_name) w in
  let o := run (main pkg_name) w in
  result setup = Ok (pkg_json, packed_name, None) →
  o = Out (trace setup) (world setup) (Err TypeError)
  ∧ List.filter is_hash (trace o) = []
  ∧ gap_calls (trace o) = [].
Proof.
  intros setup o Hs.
  assert (o = Out (trace setup) (world setup) (Err TypeError)) as ->.
  { subst o. rewrite run_main. unfold field_validation. fold setup.
    unfold and_then at 2. rewrite Hs. rewrite run_validate_package.
    unfold and_then. simpl. by rewrite app_nil_r. }
  simpl. split_and!; [done|..]; apply main_setup_avoids; by intros [].
Qed.

Lemma validate_package_avoids_download pkg_name unpacked_name packed_name pkg_json :
  avoids is_download
    (validate_package pkg_name unpacked_name packed_name pkg_json).
Proof.
  unfold validate_package, os_path_join, subscript. cbv zeta.
  avoiding; reflexivity.
Qed.

Lemma main_downloads_in_setup pkg_name w :
  List.filter is_download (trace (run (main pkg_name) w))
  = List.filter is_download (trace (run (main_setup pkg_name) w)).
Proof.
  rewrite run_main, trace_and_then, List.filter_app.
  unfold field_validation at 1. rewrite trace_and_then, List.filter_app.
  rewrite <- (app_nil_r (List.filter _ (trace (run (main_setup _) _)))) at 2.
  rewrite <- app_assoc. f_equal.
  assert (List.filter is_download
            match result (run (main_setup pkg_name) w) with
            | Ok a =>
                trace
                  ((λ '(pkg_json, packed_name, unpacked_name) w1,
                      and_then
                        (run (validate_package pkg_name unpacked_name
                                packed_name pkg_json) w1)
                        (λ passed w2, Out [] w2 (Ok (passed, unpacked_name))))
                     a (world (run (main_setup pkg_name) w)))
            | Err _ => []
            end = []) as ->.
  { destruct (result (run (main_setup pkg_name) w)) as [[[j p] u]|e]; [|done].
    rewrite trace_and_then, List.filter_app.
    rewrite (avoids_run _ _ _ (validate_package_avoids_download _ _ _ _)).
    by destruct (result (run (validate_package _ _ _ _) _)). }
  rewrite app_nil_l.
  destruct (result (field_validation pkg_name w)) as [[[] u]|e]; [|done..].
  rewrite run_main_external. cbv zeta.
  by destruct (validator_answer _ _ _) as [w' [code|e]];
    [destruct (bool_decide (code ≠ 0%Z))|].
Qed.

(** X13. [main] calls [download_archive] at most once, whatever happens;
    when it does, the call is for the package it was given and asks for
    five tries. *)
Theorem main_downloads_at_most_once (pkg_name : string) (w : W) :
  let downloads := List.filter is_download (trace (run (main pkg_name) w)) in
  downloads = []
  ∨ ∃ url packed_name,
      downloads = [DownloadArchive pkg_name url packed_name 5].
Proof.
  intros downloads. subst downloads. rewrite main_downloads_in_setup.
  rewrite run_main_setup.
  destruct (host_metadata w pkg_name) as [w1 [pkg_json|e]]; [|by left].
  destruct (pkg_json !! "ArchiveFormats") as [formats|]; [|by left].
  destruct (pkg_json !! "ArchiveURL") as [archive_url|]; [|by left].
  cbv zeta. right. do 2 eexists.
  destruct (host_download _ _ _ _ _) as [w2 [[]|e]]; cbn [trace List.filter];
    [|reflexivity].
  cbn [is_download]. f_equal.
  rewrite trace_and_then, List.filter_app.
  rewrite (avoids_run _ _ _ (unpack_archive_avoids is_download _ _ _
             ltac:(by intros []))), app_nil_l.
  destruct (result (run (unpack_archive _ _ _) w2)); [|done].
  rewrite trace_and_then, List.filter_app.
  rewrite (avoids_run _ _ _ (unpacked_archive_name_avoids is_download _ _
             ltac:(by intros []))).
  by destruct (result (run (unpacked_archive_name _ _) _)).
Qed.

(** X14. [main] returns, so that the driver goes on to the next package,
    exactly when the field validation returned [False], or returned
    [True] and the validator returned an exit code, zero or not.  In
    every other case it raises. *)
Theorem main_returns_iff (pkg_name : string) (w : W) :
  let fv := field_validation pkg_name w in
  result (run (main pkg_name) w) = Ok tt
  ↔ (∃ u, result fv = Ok (false, u))
    ∨ (∃ u w' code, result fv = Ok (true, u)
         ∧ validator_answer pkg_name u (world fv) = (w', Ok code)).
Proof.
  intros fv. rewrite run_main, result_and_then. fold fv.
  destruct (result fv) as [[[] u]|e].
  - rewrite run_main_external. cbv zeta.
    destruct (validator_answer pkg_name u (world fv)) as [w' [code|e]] eqn:E.
    + split; [intros _|done]. right. by exists u, w', code.
    + split; [done|]. intros [[u' [=]]|(u' & w'' & code & [= <-] & Ha)].
      congruence.
  - split; [intros _; left; by exists u|done].
  - split; [done|]. intros [[u [=]]|(u & w' & code & [=] & _)].
Qed.




Lemma run_script argv w : run (script argv) w = run_packages (tail argv) w.
Proof.
  unfold script, range. destruct argv as [|prog pkgs]; [done|].
  simpl length. rewrite Nat.sub_succ, Nat.sub_0_r.
  apply (run_for_each_index [prog] pkgs w).
Qed.

Lemma run_packages_app (a b : list string) (w : W) :
  run_packages (a ++ b) w
  = and_then (run_packages a w) (λ _ w', run_packages b w').
Proof.
  revert w. induction a as [|p a IH]; intros w.
  - simpl app. change (run_packages [] w) with (Out (A:=unit) [] w (Ok tt)).
    by rewrite and_then_pure.
  - change (run_packages ((p :: a) ++ b) w)
      with (and_then (run (main p) w) (λ _ w', run_packages (a ++ b) w')).
    change (run_packages (p :: a) w)
      with (and_then (run (main p) w) (λ _ w', run_packages a w')).
    rewrite and_then_assoc. apply and_then_ext. intros _ w'. apply IH.
Qed.

(** X16. One invocation on two lists of packages, one after the other,
    does what an invocation on the first list does, followed, when that
    one returns, by an invocation on the second list in the world the
    first one left; when the first raises, the second list is not
    touched. *)
Theorem script_splits (prog prog' : string) (a b : list string) (w : W) :
  run (script (prog :: a ++ b)) w
  = and_then (run (script (prog :: a)) w)
             (λ _ w', run (script (prog' :: b)) w').
Proof.
  rewrite !run_script. simpl tail. rewrite run_packages_app.
  apply and_then_ext. intros _ w'. by rewrite run_script.
Qed.

(** X17. The first element of [sys.argv] is never treated as a package:
    the run does not depend on it, and with no further argument the
    driver makes no call at all and returns. *)
Theorem script_ignores_program_name (prog prog' : string)
    (pkgs : list string) (w : W) :
  run (script (prog :: pkgs)) w = run (script (prog' :: pkgs)) w
  ∧ run (script [prog]) w = Out [] w (Ok tt)
  ∧ processed (trace (run (script (prog :: pkgs)) w)) `prefix_of` pkgs.
Proof.
  rewrite !run_script. simpl tail. split_and!; [done|done|].
  apply run_packages_processed.
Qed.

End MainMore.

(** ** Concrete runs for the further properties *)

Section ExamplesMore.

(** The stale [walrus] again: [False], with three warnings. *)
Lemma validate_package_false_iff_warned_witness :
  length (warnings (trace (run (validate_package "walrus" (Some Toy.walrus_dir)
                                  Toy.walrus_tgz Toy.stale_record)
                               Toy.unpacked))) ≤ 3.
Proof.
  destruct (validate_package_false_iff_warned "walrus" (Some Toy.walrus_dir)
              Toy.walrus_tgz Toy.stale_record Toy.unpacked false)
    as [_ Hlen]; [vm_compute; reflexivity|].
  exact Hlen.
Defined.


(** [PackageInfo.g] is not in the unpacked tree: the exception of
    [sha256] ends the validation after one call. *)
Lemma validate_package_hash_error_witness :
  run (validate_package "walrus" (Some Toy.walrus_dir) Toy.walrus_tgz
         Toy.stale_record) Toy.no_manifest
  = Out [Sha256 "_unpacked_archives/walrus-0.9991/PackageInfo.g"]
        Toy.no_manifest
        (Err (OSError "_unpacked_archives/walrus-0.9991/PackageInfo.g")).
Proof.
  apply (validate_package_hash_error "walrus" Toy.walrus_dir Toy.walrus_tgz
           Toy.stale_record Toy.no_manifest "ffff"
           (OSError "_unpacked_archives/walrus-0.9991/PackageInfo.g"));
    vm_compute; reflexivity.
Defined.

(** The docstring's [walrus]: [walrus/meta.json.old] is looked for,
    [walrus/meta.yml.old] is reported. *)
Lemma missing_snapshot_warning_names_yml_witness :
  let o := run (validate_package "walrus" (Some Toy.walrus_dir)
                  Toy.walrus_tgz Toy.stale_record) Toy.unpacked in
  In (OsPathExists "walrus/meta.json.old") (trace o)
  ∧ last (trace o)
    = Some (Warning "walrus: the file walrus/meta.yml.old is missing, FAILED!").
Proof.
  destruct (missing_snapshot_warning_names_yml "walrus" (Some Toy.walrus_dir)
              Toy.walrus_tgz Toy.stale_record Toy.unpacked false)
    as (_ & Hin & Hlast & _); [vm_compute; reflexivity..|].
  exact (conj Hin Hlast).
Defined.

(** A path without a dot that ends in [gz] goes to [tarfile]. *)
Lemma unpack_archive_without_dot_witness :
  extractions (trace (run (unpack_archive Toy.staging_dir "walrus"
                             "_archives/walrus-tgz") Toy.distro))
  = [TarExtractAll "_archives/walrus-tgz" Toy.staging_dir].
Proof.
  destruct (unpack_archive_without_dot Toy.staging_dir "walrus"
              "_archives/walrus-tgz" Toy.distro) as (Htar & _).
  - exact (not_occurs_of_split "." "_archives/walrus-tgz" eq_refl).
  - right. eexists. vm_compute. reflexivity.
  - apply Htar. left. by exists "_archives/walrus-t".
Defined.

(** [GAPDoc-1.6.6] is listed first and is taken for the package [gap]. *)
Lemma unpacked_archive_name_takes_first_prefix_witness :
  run (unpacked_archive_name Toy.staging_dir "gap")
      (Toy.staging ["GAPDoc-1.6.6"; "gap-4.12.2"])
  = Out [OsListdir Toy.staging_dir]
        (Toy.staging ["GAPDoc-1.6.6"; "gap-4.12.2"])
        (Ok (Some "_unpacked_archives/GAPDoc-1.6.6")).
Proof.
  apply (unpacked_archive_name_takes_first_prefix Toy.staging_dir "gap"
           "GAP" "Doc-1.6.6" ["gap-4.12.2"]
           (Toy.staging ["GAPDoc-1.6.6"; "gap-4.12.2"]));
    vm_compute; reflexivity.
Defined.

(** The record of [example] has no [ArchiveFormats]. *)
Lemma main_missing_location_field_witness :
  run (main "example") Toy.incomplete
  = Out [Metadata "example"] Toy.incomplete (Err (KeyError "ArchiveFormats")).
Proof.
  apply (main_missing_location_field "example" Toy.incomplete Toy.incomplete
           (<["ArchiveURL" := "https://example.org/releases/example-1.0"]> ∅));
    vm_compute; reflexivity.
Defined.

(** The archive of [aclib] is not there and cannot be fetched. *)
Lemma main_download_error_witness :
  run (main "aclib") Toy.incomplete
  = Out [Metadata "aclib";
         DownloadArchive "aclib"
           "https://github.com/gap-packages/aclib/releases/download/v1.3.2/aclib-1.3.2.tar.gz"
           "_archives/aclib-1.3.2.tar.gz" 5]
        Toy.incomplete (Err (SystemExit 1)).
Proof.
  apply (main_download_error "aclib" Toy.incomplete Toy.incomplete Toy.incomplete
           (Toy.meta "https://github.com/gap-packages/aclib/releases/download/v1.3.2/aclib-1.3.2"
                     ".tar.gz .tar.bz2" "1a1a" "2b2b")
           ".tar.gz .tar.bz2"
           "https://github.com/gap-packages/aclib/releases/download/v1.3.2/aclib-1.3.2"
           (SystemExit 1)); vm_compute; reflexivity.
Defined.

(** [example], released as [.tar.xz] only: nothing is resolved, no hash
    is computed, [TypeError]. *)
Lemma main_unresolved_raises_witness :
  result (run (main "example") Toy.with_xz) = Err TypeError
  ∧ List.filter is_hash (trace (run (main "example") Toy.with_xz)) = [].
Proof.
  destruct (main_unresolved_raises "example" Toy.with_xz
              (Toy.meta "https://example.org/releases/example-1.0" ".tar.xz"
                        "aaaa" "4b4b")
              "_archives/example-1.0.tar.xz")
    as (Ho & Hhash & _); [vm_compute; reflexivity|].
  split; [by rewrite Ho|exact Hhash].
Defined.


End ExamplesMore.
